(** * lidar_align: the loader (src/loader.cpp)

    A shallow embedding of [lidar_align::Loader]: the point-cloud schema
    detector [parsePointcloudMsg], the three load drivers
    ([loadPointcloudFromROSBag], [loadTformFromROSBag],
    [loadTformFromMaplabCSV]) and the CSV line parser
    [getNextCSVTransform], together with the properties of the
    specification that concern them. *)

From Stdlib Require Import ZArith List String Ascii Bool Lia.
From Stdlib Require Import Floats.SpecFloat.
Import ListNotations.

Local Open Scope string_scope.
Local Open Scope Z_scope.

(** ** Floating-point values

    Coordinates are IEEE-754 values.  They are kept as [spec_float], the
    inductive description of a binary float (zero, infinity, NaN, or a
    signed mantissa and exponent), on which [std::isfinite] is a simple
    case analysis. *)

Module Float.

Definition float := spec_float.

(** [std::isfinite]: neither an infinity nor a NaN. *)
Definition isfinite (f : float) : bool :=
  match f with
  | S754_zero _ => true
  | S754_finite _ _ _ => true
  | S754_infinity _ => false
  | S754_nan => false
  end.

Definition zero : float := S754_zero false.
Definition nan : float := S754_nan.
Definition infinity : float := S754_infinity false.

(** binary64 parameters, for the values [std::stod] returns. *)
Definition prec64 : Z := 53.
Definition emax64 : Z := 1024.

(** The double nearest to the integer [n] (ties to even). *)
Definition of_Z (n : Z) : float := binary_normalize prec64 emax64 n 0 false.

End Float.

Definition float := Float.float.
Definition isfinite := Float.isfinite.

(** ** Point types *)

(** [std_msgs::Header] / [pcl::PCLHeader]: sequence index, acquisition
    time and coordinate frame. *)
Record Header := mkHeader {
  seq : Z;
  stamp : Z;
  frame_id : string
}.

Definition emptyHeader : Header :=
  {| seq := 0; stamp := 0; frame_id := "" |}.

(** [pcl::PointXYZ]. *)
Module PointXYZ.
Record t := mk { x : float; y : float; z : float }.
End PointXYZ.

(** [Point] of the loader ([pcl::PointXYZI]): the point type of
    [Pointcloud], read through [.x .y .z .intensity] at lines 40-43. *)
Module Point.
Record t := mk { x : float; y : float; z : float; intensity : float }.
End Point.

(** Modelled from the spec: [PointAllFields] is declared in
    lidar_align/sensors.h, which is not part of the sources at hand.  The
    specification's UnifiedPoint has coordinates [x y z], an optional
    scalar [intensity] and an optional per-point [time_offset]; a field
    that line 39 ([PointAllFields point;]) leaves unset is [None]. *)
Module PointAllFields.
Record t := mk {
  x : float;
  y : float;
  z : float;
  intensity : option float;
  time_offset_us : option Z
}.
End PointAllFields.

(** [pcl::PointCloud<PointT>]: a header and the points in order. *)
Record PointCloudOf (PointT : Type) := mkCloud {
  header : Header;
  points : list PointT
}.
Arguments mkCloud {PointT} _ _.
Arguments header {PointT} _.
Arguments points {PointT} _.

Definition Pointcloud := PointCloudOf Point.t.
Definition LoaderPointcloud := PointCloudOf PointAllFields.t.

(** A default-constructed cloud, as at line 94. *)
Definition emptyCloud {PointT : Type} : PointCloudOf PointT :=
  mkCloud emptyHeader [].

(** [size()] of a cloud. *)
Definition cloudSize {PointT : Type} (c : PointCloudOf PointT) : nat :=
  List.length (points c).

(** ** The point-cloud record ([sensor_msgs::PointCloud2])

    The record declares its fields by name and carries one row per point;
    a row holds one value per declared field, in declaration order. *)

Inductive Datum :=
| F32 (f : float)
| I32 (n : Z).

Record PointField := mkField { name : string }.

Record PointCloud2 := mkMsg {
  msg_header : Header;
  fields : list PointField;
  data : list (list Datum)
}.

(** Number of points of a record (its [width * height]). *)
Definition msgSize (msg : PointCloud2) : nat := List.length (data msg).

(** Index of the first declared field called [nm]. *)
Fixpoint fieldIndex (nm : string) (fs : list PointField) : option nat :=
  match fs with
  | [] => None
  | f :: fs' =>
      if String.eqb (name f) nm then Some O
      else option_map S (fieldIndex nm fs')
  end.

Definition fieldValue (fs : list PointField) (row : list Datum) (nm : string)
  : option Datum :=
  match fieldIndex nm fs with
  | Some i => nth_error row i
  | None => None
  end.

(** A float field that the record does not provide keeps the point's
    initial value, zero. *)
Definition floatField (fs : list PointField) (row : list Datum) (nm : string)
  : float :=
  match fieldValue fs row nm with
  | Some (F32 f) => f
  | _ => Float.zero
  end.

Definition optFloatField (fs : list PointField) (row : list Datum)
  (nm : string) : option float :=
  match fieldValue fs row nm with
  | Some (F32 f) => Some f
  | _ => None
  end.

Definition optIntField (fs : list PointField) (row : list Datum)
  (nm : string) : option Z :=
  match fieldValue fs row nm with
  | Some (I32 n) => Some n
  | _ => None
  end.

(** [pcl::fromROSMsg] at the three point types the loader uses: the
    target cloud is overwritten with one point per row of the record, each
    field copied by name, and the record's header. *)
Module fromROSMsg.

Definition decodeXYZ (fs : list PointField) (row : list Datum)
  : PointXYZ.t :=
  PointXYZ.mk (floatField fs row "x") (floatField fs row "y")
              (floatField fs row "z").

Definition decodeXYZI (fs : list PointField) (row : list Datum) : Point.t :=
  Point.mk (floatField fs row "x") (floatField fs row "y")
           (floatField fs row "z") (floatField fs row "intensity").

Definition decodeAllFields (fs : list PointField) (row : list Datum)
  : PointAllFields.t :=
  PointAllFields.mk (floatField fs row "x") (floatField fs row "y")
                    (floatField fs row "z")
                    (optFloatField fs row "intensity")
                    (optIntField fs row "time_offset_us").

Definition toXYZ (msg : PointCloud2) : PointCloudOf PointXYZ.t :=
  mkCloud (msg_header msg) (map (decodeXYZ (fields msg)) (data msg)).

Definition toXYZI (msg : PointCloud2) : Pointcloud :=
  mkCloud (msg_header msg) (map (decodeXYZI (fields msg)) (data msg)).

Definition toAllFields (msg : PointCloud2) : LoaderPointcloud :=
  mkCloud (msg_header msg) (map (decodeAllFields (fields msg)) (data msg)).

End fromROSMsg.

(** ** [Loader::parsePointcloudMsg] (lines 19-72) *)

(** The flags [has_timing] and [has_intensity] after one field of the
    loop at lines 23-29. *)
Definition scanField (flags : bool * bool) (field : PointField)
  : bool * bool :=
  let (has_timing, has_intensity) := flags in
  if String.eqb (name field) "time_offset_us" then (true, has_intensity)
  else if String.eqb (name field) "intensity" then (has_timing, true)
  else (has_timing, has_intensity).

Definition scanFields (fs : list PointField) : bool * bool :=
  fold_left scanField fs (false, false).

Definition push_back {PointT : Type} (c : PointCloudOf PointT) (p : PointT)
  : PointCloudOf PointT :=
  mkCloud (header c) (points c ++ [p])%list.

Definition set_header {PointT : Type} (c : PointCloudOf PointT) (h : Header)
  : PointCloudOf PointT :=
  mkCloud h (points c).

(** One iteration of the loop at lines 38-51. *)
Definition pushIntensityPoint (pointcloud : LoaderPointcloud)
  (raw_point : Point.t) : LoaderPointcloud :=
  let px := Point.x raw_point in
  let py := Point.y raw_point in
  let pz := Point.z raw_point in
  let pi := Point.intensity raw_point in
  let point := PointAllFields.mk px py pz (Some pi) None in
  if negb (isfinite px) || negb (isfinite py) ||
     negb (isfinite pz) || negb (isfinite pi)
  then pointcloud
  else push_back pointcloud point.

(** One iteration of the loop at lines 57-69. *)
Definition pushBarePoint (pointcloud : LoaderPointcloud)
  (raw_point : PointXYZ.t) : LoaderPointcloud :=
  let px := PointXYZ.x raw_point in
  let py := PointXYZ.y raw_point in
  let pz := PointXYZ.z raw_point in
  let point := PointAllFields.mk px py pz None None in
  if negb (isfinite px) || negb (isfinite py) || negb (isfinite pz)
  then pointcloud
  else push_back pointcloud point.

(** [parsePointcloudMsg msg pointcloud]: the cloud [*pointcloud] after
    the call. *)
Definition parsePointcloudMsg (msg : PointCloud2)
  (pointcloud : LoaderPointcloud) : LoaderPointcloud :=
  let (has_timing, has_intensity) := scanFields (fields msg) in
  if has_timing then
    fromROSMsg.toAllFields msg
  else if has_intensity then
    let raw_pointcloud := fromROSMsg.toXYZI msg in
    let pointcloud' :=
      fold_left pushIntensityPoint (points raw_pointcloud) pointcloud in
    set_header pointcloud' (header raw_pointcloud)
  else
    let raw_pointcloud := fromROSMsg.toXYZ msg in
    let pointcloud' :=
      fold_left pushBarePoint (points raw_pointcloud) pointcloud in
    set_header pointcloud' (header raw_pointcloud).

(** ** Exceptions

    [std::stoll] and [std::stod] throw; nothing in the loader catches
    what they throw, so a call either returns a value or ends with the
    exception. *)

Inductive exn :=
| invalid_argument
| out_of_range.

Inductive Outcome (A : Type) :=
| Returned (a : A)
| Thrown (e : exn).
Arguments Returned {A} _.
Arguments Thrown {A} _.

Definition bind {A B : Type} (o : Outcome A) (k : A -> Outcome B)
  : Outcome B :=
  match o with
  | Returned a => k a
  | Thrown e => Thrown e
  end.

Notation "x <- e ;; k" := (bind e (fun x => k))
  (at level 61, e at next level, right associativity).

(** ** Characters and numeric conversions *)

Module Chars.

Definition code (c : ascii) : Z := Z.of_nat (nat_of_ascii c).

(** [isspace] in the "C" locale. *)
Definition isspace (c : ascii) : bool :=
  (code c =? 32) || ((9 <=? code c) && (code c <=? 13)).

Definition digit (c : ascii) : option Z :=
  if (48 <=? code c) && (code c <=? 57) then Some (code c - 48) else None.

Definition hexdigit (c : ascii) : option Z :=
  if (48 <=? code c) && (code c <=? 57) then Some (code c - 48)
  else if (97 <=? code c) && (code c <=? 102) then Some (code c - 87)
  else if (65 <=? code c) && (code c <=? 70) then Some (code c - 55)
  else None.

Definition tolower (c : ascii) : ascii :=
  if (65 <=? code c) && (code c <=? 90)
  then ascii_of_nat (nat_of_ascii c + 32) else c.

Fixpoint skipSpace (s : string) : string :=
  match s with
  | String c s' => if isspace c then skipSpace s' else s
  | EmptyString => s
  end.

(** An optional sign: [true] for ['-']. *)
Definition readSign (s : string) : bool * string :=
  match s with
  | String "-" s' => (true, s')
  | String "+" s' => (false, s')
  | _ => (false, s)
  end.

(** The longest run of digits in base [base] at the head of [s]:
    its value on top of [acc], its length on top of [count], and
    what follows it. *)
Fixpoint readDigits (dig : ascii -> option Z) (base : Z) (acc : Z)
  (count : nat) (s : string) : Z * nat * string :=
  match s with
  | String c s' =>
      match dig c with
      | Some d => readDigits dig base (acc * base + d) (S count) s'
      | None => (acc, count, s)
      end
  | EmptyString => (acc, count, s)
  end.

(** [s] starts with [lit], letter case ignored; the rest of [s]. *)
Fixpoint stripPrefixCI (lit s : string) : option string :=
  match lit, s with
  | EmptyString, _ => Some s
  | String a lit', String c s' =>
      if Ascii.eqb a (tolower c) then stripPrefixCI lit' s' else None
  | String _ _, EmptyString => None
  end.

End Chars.

Definition LLONG_MAX : Z := 9223372036854775807.
Definition LLONG_MIN : Z := - 9223372036854775808.

(** [std::stoll(str)] (base 10): leading white space, an optional sign,
    then digits; what follows the digits is ignored.  No digit at all is
    [std::invalid_argument], a value outside [long long] is
    [std::out_of_range]. *)
Definition stoll (str : string) : Outcome Z :=
  let (neg, s) := Chars.readSign (Chars.skipSpace str) in
  let '(n, count, _) := Chars.readDigits Chars.digit 10 0 O s in
  match count with
  | O => Thrown invalid_argument
  | S _ =>
      let v := if neg then - n else n in
      if (LLONG_MIN <=? v) && (v <=? LLONG_MAX) then Returned v
      else Thrown out_of_range
  end.

(** [std::stod(str)], through [strtod]: leading white space, an optional
    sign, then one of
    - [inf] or [infinity], [nan] (letter case ignored),
    - a hexadecimal literal [0x h.h p e],
    - a decimal literal [d.d e e] with at least one digit;
    what follows the literal is ignored.  The value is the double nearest
    to the literal (ties to even).  No literal at all is
    [std::invalid_argument]; a literal that overflows, or that falls
    below the normal range and is not representable, is
    [std::out_of_range]. *)
Module Strtod.
Import Chars.

(** An exponent part [marker sign digits]; it is consumed only when at
    least one digit is there. *)
Definition readExponent (marker : ascii) (s : string) : Z * string :=
  match s with
  | String c s' =>
      if Ascii.eqb (tolower c) marker then
        let (neg, s1) := readSign s' in
        let '(e, count, rest) := readDigits digit 10 0 O s1 in
        match count with
        | O => (0, s)
        | S _ => (if neg then - e else e, rest)
        end
      else (0, s)
  | EmptyString => (0, s)
  end.

(** Digits, an optional point, digits: the digits read as one integer,
    how many of them follow the point, and the rest. *)
Definition readMantissa (dig : ascii -> option Z) (base : Z) (s : string)
  : option (Z * nat * string) :=
  let '(m1, c1, s1) := readDigits dig base 0 O s in
  let '(m2, c2, s2) :=
    match s1 with
    | String "." s1' => readDigits dig base m1 O s1'
    | _ => (m1, O, s1)
    end in
  match (c1 + c2)%nat with
  | O => None
  | S _ => Some (m2, c2, s2)
  end.

(** [m * base ^ e] as a fraction of two integers. *)
Definition scale (base m e : Z) : Z * Z :=
  if 0 <=? e then (m * base ^ e, 1) else (m, base ^ (- e)).

Definition decLiteral (s : string) : option (Z * Z) :=
  match readMantissa digit 10 s with
  | Some (m, c2, rest) =>
      let (e, _) := readExponent "e" rest in
      Some (scale 10 m (e - Z.of_nat c2))
  | None => None
  end.

Definition hexLiteral (s : string) : option (Z * Z) :=
  match stripPrefixCI "0x" s with
  | Some s' =>
      match readMantissa hexdigit 16 s' with
      | Some (m, c2, rest) =>
          let (e, _) := readExponent "p" rest in
          Some (scale 2 m (e - 4 * Z.of_nat c2))
      | None => None
      end
  | None => None
  end.

(** The double nearest to [num / den]. *)
Definition roundRatio (neg : bool) (num den : Z) : float :=
  match num, den with
  | Zpos n, Zpos d =>
      SFdiv Float.prec64 Float.emax64
            (S754_finite neg n 0) (S754_finite false d 0)
  | _, _ => S754_zero neg
  end.

(** [f] has the magnitude [num / den] exactly. *)
Definition exactRatio (f : float) (num den : Z) : bool :=
  match f with
  | S754_zero _ => num =? 0
  | S754_finite _ m e =>
      if 0 <=? e then Zpos m * 2 ^ e * den =? num
      else Zpos m * den =? num * 2 ^ (- e)
  | _ => false
  end.

(** [f] is below the smallest normal double in magnitude. *)
Definition tiny (f : float) : bool :=
  match f with
  | S754_zero _ => true
  | S754_finite _ m e => Zdigits2 (Zpos m) + e <=? - 1022
  | _ => false
  end.

(** [strtod] sets [ERANGE]. *)
Definition rangeError (f : float) (num den : Z) : bool :=
  match f with
  | S754_infinity _ => true
  | _ => tiny f && negb (exactRatio f num den)
  end.

Definition convert (neg : bool) (lit : Z * Z) : Outcome float :=
  let (num, den) := lit in
  let f := roundRatio neg num den in
  if rangeError f num den then Thrown out_of_range else Returned f.

End Strtod.

Definition stod (str : string) : Outcome float :=
  let (neg, s) := Chars.readSign (Chars.skipSpace str) in
  match Chars.stripPrefixCI "inf" s with
  | Some _ => Returned (S754_infinity neg)
  | None =>
      match Chars.stripPrefixCI "nan" s with
      | Some _ => Returned S754_nan
      | None =>
          match Strtod.hexLiteral s with
          | Some lit => Strtod.convert neg lit
          | None =>
              match Strtod.decLiteral s with
              | Some lit => Strtod.convert neg lit
              | None => Thrown invalid_argument
              end
          end
      end
  end.

(** ** Timestamps, transforms and the transform accumulator *)

(** Modelled from the spec: [Timestamp] is declared in
    lidar_align/sensors.h (absent); it is an integer count of
    microseconds, wide enough for every [long long] that lines 138 and
    219 assign to it. *)
Definition Timestamp := Z.

(** Modelled from the spec: [Transform] is declared in
    lidar_align/transform.h (absent); a rigid transform is a 3-element
    translation and a quaternion rotation in (w, x, y, z) order, built by
    [Transform(Translation(x, y, z), Rotation(w, x, y, z))]. *)
Module Transform.

Record Translation := mkTranslation { tx : float; ty : float; tz : float }.

Record Rotation := mkRotation {
  rw : float; rx : float; ry : float; rz : float
}.

Record t := mk { translation : Translation; rotation : Rotation }.

(** The default-constructed transform of line 177 (the identity); it
    is overwritten before it is ever read. *)
Definition default : t :=
  mk (mkTranslation Float.zero Float.zero Float.zero)
     (mkRotation (Float.of_Z 1) Float.zero Float.zero Float.zero).

End Transform.

(** Modelled from the spec: [Odom] is defined in lidar_align/sensors.h
    and sensors.cpp (absent).  [addTransformData] inserts the pair and
    always succeeds, insertion is append-only and repeated timestamps are
    both kept; [empty] holds iff no pair has ever been inserted. *)
Module Odom.

Definition t := list (Timestamp * Transform.t).

Definition init : t := [].

Definition addTransformData (odom : t) (stamp : Timestamp)
  (T : Transform.t) : t :=
  (odom ++ [(stamp, T)])%list.

Definition empty (odom : t) : bool :=
  match odom with
  | [] => true
  | _ :: _ => false
  end.

End Odom.

(** ** Text streams

    A [std::istream] is the text not yet read.  A stream that failed to
    open has nothing to read: [peek] is [EOF] and [getline] extracts
    nothing. *)

Definition istream := string.

(** [str.peek() != EOF]. *)
Definition peekNotEOF (str : istream) : bool :=
  match str with
  | EmptyString => false
  | String _ _ => true
  end.

(** [std::getline(str, out, delim)]: characters up to the first [delim],
    which is extracted and dropped, or up to the end of the text.  The
    call succeeds iff it extracted at least one character. *)
Fixpoint getline (delim : ascii) (str : istream) : bool * string * istream :=
  match str with
  | EmptyString => (false, EmptyString, EmptyString)
  | String c str' =>
      if Ascii.eqb c delim then (true, EmptyString, str')
      else
        let '(_, out, rest) := getline delim str' in
        (true, String c out, rest)
  end.

Definition newline : ascii := "010"%char.
Definition comma : ascii := ","%char.

(** The loop of lines 202-204,
    [while (std::getline(line_stream, cell, ',')) data.push_back(cell);].
    [fuel] bounds the number of iterations. *)
Fixpoint readCells (fuel : nat) (line_stream : istream) (data : list string)
  : list string :=
  match fuel with
  | O => data
  | S fuel' =>
      let '(ok, cell, rest) := getline comma line_stream in
      if ok then readCells fuel' rest (data ++ [cell])%list else data
  end.

(** Every successful [getline] extracts a character, so the length of
    the line plus one bounds the iterations. *)
Definition splitCells (line : string) : list string :=
  readCells (S (String.length line)) line [].

(** ** [Loader::getNextCSVTransform] (lines 188-226) *)

(** What a call leaves behind: the stream, the two output locations
    [*stamp] and [*T], and how the call ended. *)
Record CSVCall := mkCSVCall {
  str_after : istream;
  stamp_after : Timestamp;
  T_after : Transform.t;
  result : Outcome bool
}.

Definition TIME : nat := 0.
Definition X : nat := 2.
Definition Y : nat := 3.
Definition Z_ : nat := 4.
Definition RW : nat := 5.
Definition RX : nat := 6.
Definition RY : nat := 7.
Definition RZ : nat := 8.

(** [data[i]]. *)
Definition at_ (data : list string) (i : nat) : string :=
  nth i data EmptyString.

(** [line[0] == '#']; on an empty line [line[0]] is the terminating
    null character. *)
Definition isComment (line : string) : bool :=
  match line with
  | String c _ => Ascii.eqb c "#"
  | EmptyString => false
  end.

(** Lines 220-223: the seven [std::stod] calls and the constructor.  The
    language leaves the order of the calls open; they are taken from left
    to right here, which only decides which exception is seen when
    several cells fail. *)
Definition parseTransform (data : list string) : Outcome Transform.t :=
  x <- stod (at_ data X) ;;
  y <- stod (at_ data Y) ;;
  z <- stod (at_ data Z_) ;;
  rw <- stod (at_ data RW) ;;
  rx <- stod (at_ data RX) ;;
  ry <- stod (at_ data RY) ;;
  rz <- stod (at_ data RZ) ;;
  Returned (Transform.mk (Transform.mkTranslation x y z)
                         (Transform.mkRotation rw rx ry rz)).

Definition getNextCSVTransform (str : istream) (stamp : Timestamp)
  (T : Transform.t) : CSVCall :=
  let '(_, line, str') := getline newline str in
  if isComment line then mkCSVCall str' stamp T (Returned false)
  else
    let data := splitCells line in
    if (List.length data <? 9)%nat then mkCSVCall str' stamp T (Returned false)
    else
      match stoll (at_ data TIME) with
      | Thrown e => mkCSVCall str' stamp T (Thrown e)
      | Returned raw =>
          let stamp' := Z.quot raw 1000 in
          match parseTransform data with
          | Thrown e => mkCSVCall str' stamp' T (Thrown e)
          | Returned T' => mkCSVCall str' stamp' T' (Returned true)
          end
      end.

(** ** [Loader::loadTformFromMaplabCSV] (lines 168-185) *)

(** The files that can be opened for reading, by path. *)
Definition FileSystem := string -> option string.

(** [std::ifstream file(csv_path, std::ifstream::in)]. *)
Definition ifstream (fs : FileSystem) (csv_path : string) : istream :=
  match fs csv_path with
  | Some text => text
  | None => EmptyString
  end.

(** The body of the loop, lines 176-181: the stream and the accumulator
    after it, unless the parse call threw.  [stamp] and [T] of lines
    176-177 are read only after a call that wrote them both; they start
    here as 0 and the default transform. *)
Definition csvBody (file : istream) (odom : Odom.t)
  : Outcome (istream * Odom.t) :=
  let call := getNextCSVTransform file 0 Transform.default in
  ok <- result call ;;
  if ok : bool
  then Returned (str_after call,
                 Odom.addTransformData odom (stamp_after call) (T_after call))
  else Returned (str_after call, odom).

(** The loop of lines 172-182; [fuel] bounds the number of iterations. *)
Fixpoint csvLoop (fuel : nat) (file : istream) (odom : Odom.t)
  : Outcome Odom.t :=
  match fuel with
  | O => Returned odom
  | S fuel' =>
      if peekNotEOF file then
        st <- csvBody file odom ;;
        csvLoop fuel' (fst st) (snd st)
      else Returned odom
  end.

(** Each iteration reads at least one character of the file, so its
    length bounds the iterations.  The call returns [true] with the
    accumulator it filled, or ends with an exception. *)
Definition loadTformFromMaplabCSV (fs : FileSystem) (csv_path : string)
  (odom : Odom.t) : Outcome (bool * Odom.t) :=
  let file := ifstream fs csv_path in
  odom' <- csvLoop (S (String.length file)) file odom ;;
  Returned (true, odom').

(** ** Record containers (rosbag) *)

(** [geometry_msgs::PoseStamped]: the header's time as (seconds,
    nanoseconds), both [uint32_t], then position and orientation. *)
Record PoseStamped := mkPoseStamped {
  stamp_sec : Z;
  stamp_nsec : Z;
  position_x : float;
  position_y : float;
  position_z : float;
  orientation_x : float;
  orientation_y : float;
  orientation_z : float;
  orientation_w : float
}.

Inductive MessageInstance :=
| PointCloud2Msg (msg : PointCloud2)
| PoseStampedMsg (msg : PoseStamped)
| OtherMsg.

(** The type tag of a record; [OtherMsg] stands for a record of any
    type the loader never asks for. *)
Definition getDataType (m : MessageInstance) : string :=
  match m with
  | PointCloud2Msg _ => "sensor_msgs/PointCloud2"
  | PoseStampedMsg _ => "geometry_msgs/PoseStamped"
  | OtherMsg => "std_msgs/String"
  end.

Definition Bag := list MessageInstance.

(** The containers that [bag.open] can open, by path; a path with no
    container makes it throw [rosbag::BagException]. *)
Definition BagStore := string -> option Bag.

(** [rosbag::View view(bag, rosbag::TypeQuery(types))]. *)
Definition View (bag : Bag) (types : list string) : list MessageInstance :=
  filter (fun m => existsb (String.eqb (getDataType m)) types) bag.

(** [m.instantiate<T>()]: null when the record is of another type. *)
Definition instantiatePointCloud2 (m : MessageInstance)
  : option PointCloud2 :=
  match m with
  | PointCloud2Msg msg => Some msg
  | _ => None
  end.

Definition instantiatePoseStamped (m : MessageInstance)
  : option PoseStamped :=
  match m with
  | PoseStampedMsg msg => Some msg
  | _ => None
  end.

(** ** Machine integers *)

Definition wrap64 (n : Z) : Z := (n + 2 ^ 63) mod 2 ^ 64 - 2 ^ 63.
Definition to_uint32 (n : Z) : Z := n mod 2 ^ 32.
Definition to_size_t (n : Z) : Z := n mod 2 ^ 64.
Definition INT_MAX : Z := 2147483647.

(** ** [Loader::loadTformFromROSBag] (lines 114-166) *)

(** Lines 138-139, in [long long] arithmetic on the two [uint32_t]
    fields. *)
Definition poseStamp (transform_msg : PoseStamped) : Timestamp :=
  wrap64 (wrap64 (to_uint32 (stamp_sec transform_msg) * 1000000)
          + Z.quot (to_uint32 (stamp_nsec transform_msg)) 1000).

(** Lines 150-156. *)
Definition poseTransform (transform_msg : PoseStamped) : Transform.t :=
  Transform.mk
    (Transform.mkTranslation (position_x transform_msg)
                             (position_y transform_msg)
                             (position_z transform_msg))
    (Transform.mkRotation (orientation_w transform_msg)
                          (orientation_x transform_msg)
                          (orientation_y transform_msg)
                          (orientation_z transform_msg)).

(** The loop of lines 129-158.  Every record of the view is a
    [PoseStamped]; the null case of [instantiate] is never met. *)
Fixpoint tformLoop (view : list MessageInstance) (odom : Odom.t) : Odom.t :=
  match view with
  | [] => odom
  | m :: view' =>
      match instantiatePoseStamped m with
      | Some transform_msg =>
          tformLoop view'
            (Odom.addTransformData odom (poseStamp transform_msg)
                                   (poseTransform transform_msg))
      | None => tformLoop view' odom
      end
  end.

Definition loadTformFromROSBag (bags : BagStore) (bag_path : string)
  (odom : Odom.t) : bool * Odom.t :=
  match bags bag_path with
  | None => (false, odom)
  | Some bag =>
      let view := View bag ["geometry_msgs/PoseStamped"] in
      let odom' := tformLoop view odom in
      if Odom.empty odom' then (false, odom') else (true, odom')
  end.

(** ** The scan accumulator *)

(** [Scan::Config] (lidar_align/sensors.h, absent): handed through to
    the accumulator untouched. *)
Inductive ScanConfig : Set := mkScanConfig.

(** Modelled from the spec: [Lidar] is defined in lidar_align/sensors.h
    and sensors.cpp (absent).  The accumulator holds the clouds in
    arrival order and a running total of points; [addPointcloud] appends
    the cloud and adds its point count to the total, unconditionally;
    [getNumberOfScans] and [getTotalPoints] are pure queries. *)
Module Lidar.

Record t := mk {
  scans : list LoaderPointcloud;
  total_points : nat
}.

Definition init : t := mk [] 0.

Definition addPointcloud (lidar : t) (pointcloud : LoaderPointcloud)
  (config : ScanConfig) : t :=
  mk (scans lidar ++ [pointcloud])%list
     (total_points lidar + cloudSize pointcloud).

Definition getNumberOfScans (lidar : t) : nat := List.length (scans lidar).

Definition getTotalPoints (lidar : t) : nat := total_points lidar.

End Lidar.

(** ** [Loader::loadPointcloudFromROSBag] (lines 74-112) *)

(** [Loader::Config] (lidar_align/loader.h, absent): [use_n_scans] is
    the [int] that line 15 reads through [nh->param]. *)
Record Config := mkConfig { use_n_scans : Z }.

(** Line 100: [lidar->getNumberOfScans() >= config_.use_n_scans], a
    [size_t] against an [int], compared as [size_t]. *)
Definition capReached (config_ : Config) (lidar : Lidar.t) : bool :=
  to_size_t (use_n_scans config_)
  <=? to_size_t (Z.of_nat (Lidar.getNumberOfScans lidar)).

(** Lines 94-98: decode one record into a fresh cloud and feed it. *)
Definition scanBody (scan_config : ScanConfig) (msg : PointCloud2)
  (lidar : Lidar.t) : Lidar.t :=
  let pointcloud := parsePointcloudMsg msg emptyCloud in
  Lidar.addPointcloud lidar pointcloud scan_config.

(** The loop of lines 90-103.  Every record of the view is a
    [PointCloud2]; the null case of [instantiate] is never met. *)
Fixpoint scanLoop (config_ : Config) (scan_config : ScanConfig)
  (view : list MessageInstance) (lidar : Lidar.t) : Lidar.t :=
  match view with
  | [] => lidar
  | m :: view' =>
      match instantiatePointCloud2 m with
      | Some msg =>
          let lidar' := scanBody scan_config msg lidar in
          if capReached config_ lidar' then lidar'
          else scanLoop config_ scan_config view' lidar'
      | None => scanLoop config_ scan_config view' lidar
      end
  end.

(** The same loop, keeping every state the accumulator goes through
    after the initial one, in order. *)
Fixpoint scanTrace (config_ : Config) (scan_config : ScanConfig)
  (view : list MessageInstance) (lidar : Lidar.t) : list Lidar.t :=
  match view with
  | [] => []
  | m :: view' =>
      match instantiatePointCloud2 m with
      | Some msg =>
          let lidar' := scanBody scan_config msg lidar in
          if capReached config_ lidar' then [lidar']
          else lidar' :: scanTrace config_ scan_config view' lidar'
      | None => scanTrace config_ scan_config view' lidar
      end
  end.

Definition pointcloudTypes : list string := ["sensor_msgs/PointCloud2"].

Definition loadPointcloudFromROSBag (bags : BagStore) (config_ : Config)
  (bag_path : string) (scan_config : ScanConfig) (lidar : Lidar.t)
  : bool * Lidar.t :=
  match bags bag_path with
  | None => (false, lidar)
  | Some bag =>
      let view := View bag pointcloudTypes in
      let lidar' := scanLoop config_ scan_config view lidar in
      if (Lidar.getTotalPoints lidar' =? 0)%nat then (false, lidar')
      else (true, lidar')
  end.

(** The accumulator states a load goes through, the initial one first. *)
Definition loadPointcloudStates (bags : BagStore) (config_ : Config)
  (bag_path : string) (scan_config : ScanConfig) (lidar : Lidar.t)
  : list Lidar.t :=
  match bags bag_path with
  | None => [lidar]
  | Some bag =>
      lidar :: scanTrace config_ scan_config (View bag pointcloudTypes) lidar
  end.

(** ** Vocabulary of the statements *)

(** The record declares a field called [nm]. *)
Definition declares (msg : PointCloud2) (nm : string) : Prop :=
  In nm (map name (fields msg)).

Definition declaresb (fs : list PointField) (nm : string) : bool :=
  existsb (fun f => String.eqb (name f) nm) fs.

(** The tests of lines 45-46 and 63-64, and the point each loop builds. *)
Definition finiteIntensityPoint (p : Point.t) : bool :=
  isfinite (Point.x p) && isfinite (Point.y p) &&
  isfinite (Point.z p) && isfinite (Point.intensity p).

Definition finiteBarePoint (p : PointXYZ.t) : bool :=
  isfinite (PointXYZ.x p) && isfinite (PointXYZ.y p) &&
  isfinite (PointXYZ.z p).

Definition ofIntensityPoint (p : Point.t) : PointAllFields.t :=
  PointAllFields.mk (Point.x p) (Point.y p) (Point.z p)
                    (Some (Point.intensity p)) None.

Definition ofBarePoint (p : PointXYZ.t) : PointAllFields.t :=
  PointAllFields.mk (PointXYZ.x p) (PointXYZ.y p) (PointXYZ.z p) None None.

(** The three coordinates of an output point are finite. *)
Definition finiteXYZ (p : PointAllFields.t) : Prop :=
  isfinite (PointAllFields.x p) = true /\
  isfinite (PointAllFields.y p) = true /\
  isfinite (PointAllFields.z p) = true.

(** An output point carries an intensity, and it is finite. *)
Definition finiteIntensity (p : PointAllFields.t) : Prop :=
  exists i, PointAllFields.intensity p = Some i /\ isfinite i = true.

(** Every field that the schema of the record requires is finite in
    [row]: x, y, z, and the intensity when the record declares one. *)
Definition requiredFinite (msg : PointCloud2) (row : list Datum) : bool :=
  isfinite (floatField (fields msg) row "x") &&
  isfinite (floatField (fields msg) row "y") &&
  isfinite (floatField (fields msg) row "z") &&
  (if declaresb (fields msg) "intensity"
   then isfinite (floatField (fields msg) row "intensity")
   else true).

(** The point that a row of a record without time offsets stands for. *)
Definition rowPoint (msg : PointCloud2) (row : list Datum)
  : PointAllFields.t :=
  if declaresb (fields msg) "intensity"
  then ofIntensityPoint (fromROSMsg.decodeXYZI (fields msg) row)
  else ofBarePoint (fromROSMsg.decodeXYZ (fields msg) row).

(** Sample records. *)
Definition sampleHeader : Header :=
  {| seq := 7; stamp := 1500; frame_id := "lidar" |}.

Definition timedMsg : PointCloud2 :=
  mkMsg sampleHeader
    [mkField "x"; mkField "y"; mkField "z"; mkField "intensity";
     mkField "time_offset_us"]
    [[F32 (Float.of_Z 1); F32 (Float.of_Z 2); F32 (Float.of_Z 3);
      F32 (Float.of_Z 9); I32 10];
     [F32 Float.nan; F32 (Float.of_Z 2); F32 Float.infinity;
      F32 Float.nan; I32 20]].

Definition intensityMsg : PointCloud2 :=
  mkMsg sampleHeader
    [mkField "x"; mkField "y"; mkField "z"; mkField "intensity"]
    [[F32 (Float.of_Z 1); F32 (Float.of_Z 2); F32 (Float.of_Z 3);
      F32 (Float.of_Z 9)];
     [F32 (Float.of_Z 1); F32 (Float.of_Z 2); F32 (Float.of_Z 3);
      F32 Float.nan];
     [F32 Float.infinity; F32 (Float.of_Z 2); F32 (Float.of_Z 3);
      F32 (Float.of_Z 9)]].

Definition bareMsg : PointCloud2 :=
  mkMsg sampleHeader
    [mkField "x"; mkField "y"; mkField "z"]
    [[F32 (Float.of_Z 1); F32 (Float.of_Z 2); F32 (Float.of_Z 3)];
     [F32 (Float.of_Z 1); F32 Float.nan; F32 (Float.of_Z 3)]].

(** The line that a call of [getNextCSVTransform] reads from [str], and
    the cells it is cut into. *)
Definition firstLine (str : istream) : string :=
  snd (fst (getline newline str)).

Definition afterFirstLine (str : istream) : istream :=
  snd (getline newline str).

(** The line begins with ['#']. *)
Definition beginsWithHash (line : string) : Prop :=
  exists rest, line = String "#" rest.

(** The character [c] occurs in [s]. *)
Fixpoint occurs (c : ascii) (s : string) : bool :=
  match s with
  | EmptyString => false
  | String a s' => Ascii.eqb a c || occurs c s'
  end.

(** A text that is neither a number nor the start of one. *)
Definition unparsableInteger (cell : string) : Prop :=
  stoll cell = Thrown invalid_argument.

Definition unparsableReal (cell : string) : Prop :=
  stod cell = Thrown invalid_argument.

(** The call ended with an exception. *)
Definition raises {A : Type} (o : Outcome A) : Prop :=
  exists e, o = Thrown e.


Definition sampleTransform : Transform.t :=
  Transform.mk
    (Transform.mkTranslation (Float.of_Z 1) (Float.of_Z 2) (Float.of_Z 3))
    (Transform.mkRotation (Float.of_Z 1) Float.zero Float.zero Float.zero).

(** A header line as CSV exports carry it: a comment with nine cells. *)
Definition headerLine : string :=
  "# timestamp, vertex-id, x, y, z, qw, qx, qy, qz".

(** The columns that [getNextCSVTransform] reads as reals. *)
Definition realColumns : list nat := [X; Y; Z_; RW; RX; RY; RZ].

(** The pose samples of a container, in order. *)
Definition posesOf (bag : Bag) : list PoseStamped :=
  flat_map (fun m => match instantiatePoseStamped m with
                     | Some msg => [msg]
                     | None => []
                     end) bag.

(** The point-cloud records of a container, in order. *)
Definition cloudsOf (bag : Bag) : list PointCloud2 :=
  flat_map (fun m => match instantiatePointCloud2 m with
                     | Some msg => [msg]
                     | None => []
                     end) bag.

(** Both time fields hold a [uint32_t]. *)
Definition stampInRange (msg : PoseStamped) : Prop :=
  0 <= stamp_sec msg < 2 ^ 32 /\ 0 <= stamp_nsec msg < 2 ^ 32.

(** Sample pose, container and file stores. *)
Definition samplePose : PoseStamped :=
  mkPoseStamped 5 500000000 (Float.of_Z 1) (Float.of_Z 2) (Float.of_Z 3)
                Float.zero Float.zero Float.zero (Float.of_Z 1).

Definition noFiles : FileSystem := fun _ => None.
Definition noBags : BagStore := fun _ => None.

(** A single file, or a single container, whatever the path. *)
Definition oneFile (text : string) : FileSystem := fun _ => Some text.
Definition oneBag (bag : Bag) : BagStore := fun _ => Some bag.

(** The number of scans held by an accumulator, as an integer. *)
Definition scanCount (lidar : Lidar.t) : Z :=
  Z.of_nat (Lidar.getNumberOfScans lidar).

(** Sample containers: three point-cloud records among others, and a
    single one. *)
Definition threeScanBag : Bag :=
  [PointCloud2Msg bareMsg; OtherMsg; PointCloud2Msg intensityMsg;
   PoseStampedMsg samplePose; PointCloud2Msg timedMsg].

Definition oneScanBag : Bag := [PointCloud2Msg bareMsg].

(** How many times the character [c] occurs in [s]. *)
Fixpoint countChar (c : ascii) (s : string) : nat :=
  match s with
  | EmptyString => O
  | String a s' => ((if Ascii.eqb a c then 1 else 0) + countChar c s')%nat
  end.

(** The text starts with a decimal digit. *)
Definition startsWithDigit (s : string) : bool :=
  match s with
  | String c _ => match Chars.digit c with Some _ => true | None => false end
  | EmptyString => false
  end.

(** A character that can start a real in the sense of [strtod]: white
    space, a sign, a digit, the point, or the first letter of [inf] or
    [nan]. *)
Definition numberStart (c : ascii) : bool :=
  Chars.isspace c ||
  match Chars.digit c with Some _ => true | None => false end ||
  existsb (Ascii.eqb c) ["+"; "-"; "."; "i"; "I"; "n"; "N"]%char.

(** ** Further vocabulary *)

(** The last character of a text. *)
Fixpoint lastChar (s : string) : option ascii :=
  match s with
  | EmptyString => None
  | String c EmptyString => Some c
  | String _ s' => lastChar s'
  end.

(** The text ends with a comma. *)
Definition endsWithComma (s : string) : bool :=
  match lastChar s with
  | Some c => Ascii.eqb c comma
  | None => false
  end.

(** One cell per comma, and one more for what follows the last comma
    unless nothing follows it. *)
Definition cellCount (line : string) : nat :=
  (countChar comma line
   + match lastChar line with
     | Some c => if Ascii.eqb c comma then 0 else 1
     | None => 0
     end)%nat.

(** Cells written out with commas between them. *)
Fixpoint joinCells (cells : list string) : string :=
  match cells with
  | [] => EmptyString
  | [cell] => cell
  | cell :: cells' => cell ++ String comma (joinCells cells')
  end.

(** The columns that [getNextCSVTransform] reads. *)
Definition readColumns : list nat := TIME :: realColumns.

(** A file of two lines: a comment, then a line of two cells. *)
Definition twoLineFile : string := "# header" ++ String newline "1,2".

(** The lines of a file, in order: what successive [std::getline] calls
    read until [peek] meets the end.  [fuel] bounds their number. *)
Fixpoint readLines (fuel : nat) (file : istream) : list string :=
  match fuel with
  | O => []
  | S fuel' =>
      if peekNotEOF file
      then firstLine file :: readLines fuel' (afterFirstLine file)
      else []
  end.

Definition fileLines (file : istream) : list string :=
  readLines (S (String.length file)) file.

(** The line is one that [getNextCSVTransform] answers with [false]. *)
Definition skippedLine (line : string) : Prop :=
  beginsWithHash line \/ (List.length (splitCells line) < 9)%nat.

(** The line is a data line with a cell that is no number. *)
Definition badDataLine (line : string) : Prop :=
  ~ beginsWithHash line /\
  (9 <= List.length (splitCells line))%nat /\
  (unparsableInteger (at_ (splitCells line) TIME) \/
   exists i, In i realColumns /\ unparsableReal (at_ (splitCells line) i)).

(** What [getNextCSVTransform] makes of a line on its own. *)
Definition lineCall (line : string) : CSVCall :=
  getNextCSVTransform line 0 Transform.default.

(** The samples of a line: one when the call returns [true]. *)
Definition lineSamples (line : string) : list (Timestamp * Transform.t) :=
  match result (lineCall line) with
  | Returned true => [(stamp_after (lineCall line), T_after (lineCall line))]
  | _ => []
  end.

(** A file of three lines: a header, a sample, a short line. *)
Definition sampleFile : string :=
  headerLine ++ String newline
    ("1000000,0,1.0,2.0,3.0,1.0,0.0,0.0,0.0" ++ String newline "7,8,9").

(** A file whose second line has a word where a number should be. *)
Definition brokenFile : string :=
  headerLine ++ String newline
    ("1000000,0,1.0,east,3.0,1.0,0.0,0.0,0.0" ++ String newline
     "2000000,0,1.0,2.0,3.0,1.0,0.0,0.0,0.0").

(** A file of comments and short lines only. *)
Definition idleFile : string :=
  headerLine ++ String newline ("1,2,3" ++ String newline "# end").

(** The clouds that the records decode to, each into a fresh cloud. *)
Definition decodedScans (msgs : list PointCloud2) : list LoaderPointcloud :=
  map (fun msg => parsePointcloudMsg msg emptyCloud) msgs.

(** The number of points of a list of clouds. *)
Definition totalSize (clouds : list LoaderPointcloud) : nat :=
  list_sum (map cloudSize clouds).

(** Feeding records to the accumulator one after the other, with no
    cap. *)
Definition feedAll (scan_config : ScanConfig) (msgs : list PointCloud2)
  (lidar : Lidar.t) : Lidar.t :=
  fold_left (fun l msg => scanBody scan_config msg l) msgs lidar.

(** The time of a pose is normalised: less than a second of
    nanoseconds. *)
Definition stampNormalised (msg : PoseStamped) : Prop :=
  0 <= stamp_sec msg < 2 ^ 32 /\ 0 <= stamp_nsec msg < 1000000000.

(** The time of [a] is not after the time of [b]. *)
Definition notAfter (a b : PoseStamped) : Prop :=
  stamp_sec a < stamp_sec b \/
  (stamp_sec a = stamp_sec b /\ stamp_nsec a <= stamp_nsec b).

Definition INT_MIN : Z := - 2147483648.

(** A record without a finite point. *)
Definition blindMsg : PointCloud2 :=
  mkMsg sampleHeader
    [mkField "x"; mkField "y"; mkField "z"]
    [[F32 Float.nan; F32 (Float.of_Z 2); F32 (Float.of_Z 3)];
     [F32 (Float.of_Z 1); F32 Float.infinity; F32 (Float.of_Z 3)]].

(** * Properties *)

(** ** Schema detection *)

Lemma declaresb_In (fs : list PointField) (nm : string) :
  declaresb fs nm = true <-> In nm (map name fs).
Proof.
  unfold declaresb. rewrite existsb_exists, in_map_iff. split.
  - intros [f [Hin Heq]]. apply String.eqb_eq in Heq. now exists f.
  - intros [f [Heq Hin]]. exists f. split; [assumption|].
    now apply String.eqb_eq.
Qed.

Lemma scanFields_from (fs : list PointField) (t i : bool) :
  fold_left scanField fs (t, i)
  = (t || declaresb fs "time_offset_us", i || declaresb fs "intensity").
Proof.
  revert t i. induction fs as [|f fs IH]; intros t i; simpl.
  - now rewrite !orb_false_r.
  - destruct (String.eqb (name f) "time_offset_us") eqn:Et.
    + apply String.eqb_eq in Et. rewrite IH, Et. simpl.
      now rewrite orb_true_r.
    + destruct (String.eqb (name f) "intensity") eqn:Ei;
        rewrite IH; simpl; [now rewrite orb_true_r | reflexivity].
Qed.

Lemma scanFields_spec (fs : list PointField) :
  scanFields fs = (declaresb fs "time_offset_us", declaresb fs "intensity").
Proof. unfold scanFields. now rewrite scanFields_from. Qed.

(** ** The two filtering loops *)

Lemma pushIntensityPoint_spec (pc : LoaderPointcloud) (p : Point.t) :
  pushIntensityPoint pc p
  = if finiteIntensityPoint p then push_back pc (ofIntensityPoint p) else pc.
Proof.
  unfold pushIntensityPoint, finiteIntensityPoint, ofIntensityPoint.
  destruct (isfinite (Point.x p)), (isfinite (Point.y p)),
    (isfinite (Point.z p)), (isfinite (Point.intensity p)); reflexivity.
Qed.

Lemma pushBarePoint_spec (pc : LoaderPointcloud) (p : PointXYZ.t) :
  pushBarePoint pc p
  = if finiteBarePoint p then push_back pc (ofBarePoint p) else pc.
Proof.
  unfold pushBarePoint, finiteBarePoint, ofBarePoint.
  destruct (isfinite (PointXYZ.x p)), (isfinite (PointXYZ.y p)),
    (isfinite (PointXYZ.z p)); reflexivity.
Qed.

Section FilterLoop.
Context {RawT : Type}.
Variable keep : RawT -> bool.
Variable conv : RawT -> PointAllFields.t.
Variable push : LoaderPointcloud -> RawT -> LoaderPointcloud.
Hypothesis push_spec :
  forall pc p, push pc p = if keep p then push_back pc (conv p) else pc.

Lemma filterLoop_points (raws : list RawT) (pc : LoaderPointcloud) :
  points (fold_left push raws pc)
  = (points pc ++ map conv (filter keep raws))%list.
Proof.
  revert pc. induction raws as [|p raws IH]; intros pc; simpl.
  - now rewrite app_nil_r.
  - rewrite IH, push_spec. destruct (keep p); simpl.
    + now rewrite <- app_assoc.
    + reflexivity.
Qed.

Lemma filterLoop_header (raws : list RawT) (pc : LoaderPointcloud) :
  header (fold_left push raws pc) = header pc.
Proof.
  revert pc. induction raws as [|p raws IH]; intros pc; simpl.
  - reflexivity.
  - rewrite IH, push_spec. now destruct (keep p).
Qed.
End FilterLoop.

(** What [parsePointcloudMsg] leaves in the cloud, branch by branch. *)
Lemma parsePointcloudMsg_timing (msg : PointCloud2) (pc : LoaderPointcloud) :
  declaresb (fields msg) "time_offset_us" = true ->
  parsePointcloudMsg msg pc = fromROSMsg.toAllFields msg.
Proof.
  intros H. unfold parsePointcloudMsg. rewrite scanFields_spec, H.
  reflexivity.
Qed.

Lemma parsePointcloudMsg_intensity (msg : PointCloud2)
  (pc : LoaderPointcloud) :
  declaresb (fields msg) "time_offset_us" = false ->
  declaresb (fields msg) "intensity" = true ->
  points (parsePointcloudMsg msg pc)
  = (points pc ++
     map ofIntensityPoint
       (filter finiteIntensityPoint
          (map (fromROSMsg.decodeXYZI (fields msg)) (data msg))))%list.
Proof.
  intros Ht Hi. unfold parsePointcloudMsg. rewrite scanFields_spec, Ht, Hi.
  simpl.
  apply (filterLoop_points finiteIntensityPoint ofIntensityPoint
           pushIntensityPoint pushIntensityPoint_spec).
Qed.

Lemma parsePointcloudMsg_bare (msg : PointCloud2) (pc : LoaderPointcloud) :
  declaresb (fields msg) "time_offset_us" = false ->
  declaresb (fields msg) "intensity" = false ->
  points (parsePointcloudMsg msg pc)
  = (points pc ++
     map ofBarePoint
       (filter finiteBarePoint
          (map (fromROSMsg.decodeXYZ (fields msg)) (data msg))))%list.
Proof.
  intros Ht Hi. unfold parsePointcloudMsg. rewrite scanFields_spec, Ht, Hi.
  simpl.
  apply (filterLoop_points finiteBarePoint ofBarePoint
           pushBarePoint pushBarePoint_spec).
Qed.

Lemma parsePointcloudMsg_header (msg : PointCloud2) (pc : LoaderPointcloud) :
  header (parsePointcloudMsg msg pc) = msg_header msg.
Proof.
  unfold parsePointcloudMsg.
  destruct (scanFields (fields msg)) as [[|] [|]]; reflexivity.
Qed.

(** A record without time offsets: the new points are the rows whose
    required fields are all finite, in order. *)
Lemma parsePointcloudMsg_filtered (msg : PointCloud2)
  (pc : LoaderPointcloud) :
  declaresb (fields msg) "time_offset_us" = false ->
  points (parsePointcloudMsg msg pc)
  = (points pc ++
     map (rowPoint msg) (filter (requiredFinite msg) (data msg)))%list.
Proof.
  intros Ht. destruct (declaresb (fields msg) "intensity") eqn:Hi.
  - rewrite (parsePointcloudMsg_intensity msg pc Ht Hi). f_equal.
    induction (data msg) as [|row rows IH]; [reflexivity|].
    simpl. unfold requiredFinite at 1. rewrite Hi.
    unfold finiteIntensityPoint at 1. simpl.
    destruct (_ && _ && _ && _); simpl; rewrite IH; [|reflexivity].
    unfold rowPoint at 2. now rewrite Hi.
  - rewrite (parsePointcloudMsg_bare msg pc Ht Hi). f_equal.
    induction (data msg) as [|row rows IH]; [reflexivity|].
    simpl. unfold requiredFinite at 1. rewrite Hi, andb_true_r.
    unfold finiteBarePoint at 1. simpl.
    destruct (_ && _ && _); simpl; rewrite IH; [|reflexivity].
    unfold rowPoint at 2. now rewrite Hi.
Qed.

Lemma rowPoint_finite (msg : PointCloud2) (row : list Datum) :
  requiredFinite msg row = true ->
  finiteXYZ (rowPoint msg row) /\
  (declares msg "intensity" -> finiteIntensity (rowPoint msg row)).
Proof.
  unfold requiredFinite, rowPoint, finiteXYZ, finiteIntensity, declares.
  rewrite <- declaresb_In.
  destruct (declaresb (fields msg) "intensity"); simpl;
    rewrite !andb_true_iff; intros [[[Hx Hy] Hz] Hi];
    (split; [now repeat split|]); intros Hd.
  - eexists; split; [reflexivity | exact Hi].
  - discriminate.
Qed.

Lemma rowPoint_not_finite (msg : PointCloud2) (row : list Datum) :
  requiredFinite msg row = false ->
  ~ (finiteXYZ (rowPoint msg row) /\
     (declares msg "intensity" -> finiteIntensity (rowPoint msg row))).
Proof.
  intros Hbad [[Hx [Hy Hz]] Hi]. revert Hbad Hx Hy Hz Hi.
  unfold requiredFinite, rowPoint, finiteIntensity, declares.
  rewrite <- declaresb_In.
  destruct (declaresb (fields msg) "intensity"); simpl;
    intros Hbad Hx Hy Hz Hi; rewrite Hx, Hy, Hz in Hbad; simpl in Hbad.
  - destruct (Hi eq_refl) as [i [Hsome Hfin]].
    injection Hsome as <-. congruence.
  - discriminate.
Qed.

(** C1: a record that declares the field [time_offset_us] is decoded
    directly: the cloud is the record's own rows, one point per row in
    order, whatever the cloud held before and whatever the values are,
    so the output has exactly as many points as the input and nothing is
    filtered out. *)
Theorem C1_time_offset_record_is_decoded_unfiltered :
  forall (msg : PointCloud2) (pointcloud : LoaderPointcloud),
    declares msg "time_offset_us" ->
    parsePointcloudMsg msg pointcloud = fromROSMsg.toAllFields msg /\
    points (parsePointcloudMsg msg pointcloud)
    = map (fromROSMsg.decodeAllFields (fields msg)) (data msg) /\
    cloudSize (parsePointcloudMsg msg pointcloud) = msgSize msg.
Proof.
  intros msg pc Hd. apply declaresb_In in Hd.
  rewrite (parsePointcloudMsg_timing msg pc Hd).
  repeat split. unfold cloudSize, msgSize. simpl. apply length_map.
Qed.

Lemma C1_witness :
  declares timedMsg "time_offset_us" /\
  cloudSize (parsePointcloudMsg timedMsg emptyCloud) = 2%nat /\
  exists p, In p (points (parsePointcloudMsg timedMsg emptyCloud)) /\
            isfinite (PointAllFields.x p) = false.
Proof.
  assert (Hd : declares timedMsg "time_offset_us").
  { unfold declares. simpl. tauto. }
  destruct (C1_time_offset_record_is_decoded_unfiltered timedMsg emptyCloud Hd)
    as [_ [Hpts Hsize]].
  split; [exact Hd|]. split; [exact Hsize|].
  rewrite Hpts. eexists. split; [right; left; reflexivity | reflexivity].
Defined.

(** C2: a record that does not declare [time_offset_us], decoded into a
    fresh cloud: every output point has finite x, y and z, and a finite
    intensity when the record declares one; a row with a non-finite
    required field has no point in the output; and the output has at
    most as many points as the record. *)
Theorem C2_untimed_record_is_filtered_to_finite_points :
  forall msg : PointCloud2,
    ~ declares msg "time_offset_us" ->
    let out := parsePointcloudMsg msg emptyCloud in
    (forall p, In p (points out) ->
       finiteXYZ p /\ (declares msg "intensity" -> finiteIntensity p)) /\
    (forall row, In row (data msg) -> requiredFinite msg row = false ->
       ~ In (rowPoint msg row) (points out)) /\
    (cloudSize out <= msgSize msg)%nat.
Proof.
  intros msg Hd out.
  assert (Ht : declaresb (fields msg) "time_offset_us" = false).
  { destruct (declaresb (fields msg) "time_offset_us") eqn:E; [|reflexivity].
    apply declaresb_In in E. contradiction. }
  assert (Hout : points out
                 = map (rowPoint msg) (filter (requiredFinite msg) (data msg))).
  { unfold out. now rewrite (parsePointcloudMsg_filtered msg emptyCloud Ht). }
  assert (Hall : forall p, In p (points out) ->
            finiteXYZ p /\ (declares msg "intensity" -> finiteIntensity p)).
  { intros p Hp. rewrite Hout in Hp. apply in_map_iff in Hp.
    destruct Hp as [row [<- Hrow]]. apply filter_In in Hrow.
    now apply rowPoint_finite. }
  split; [exact Hall|]. split.
  - intros row _ Hbad Hin.
    exact (rowPoint_not_finite msg row Hbad (Hall _ Hin)).
  - unfold cloudSize, msgSize. rewrite Hout, length_map.
    apply filter_length_le.
Qed.

Lemma C2_witness :
  ~ declares intensityMsg "time_offset_us" /\
  cloudSize (parsePointcloudMsg intensityMsg emptyCloud) = 1%nat /\
  (cloudSize (parsePointcloudMsg intensityMsg emptyCloud)
   <= msgSize intensityMsg)%nat.
Proof.
  assert (Hd : ~ declares intensityMsg "time_offset_us").
  { unfold declares. simpl. intros [H|[H|[H|[H|[]]]]]; discriminate. }
  split; [exact Hd|]. split; [reflexivity|].
  exact (proj2 (proj2
    (C2_untimed_record_is_filtered_to_finite_points intensityMsg Hd))).
Defined.

(** ** [std::getline] and the cell loop *)

Lemma getline_shorter (d : ascii) (s : istream) :
  s <> EmptyString ->
  (String.length (snd (getline d s)) < String.length s)%nat.
Proof.
  induction s as [|c s IH]; intros Hne; [congruence|].
  simpl. destruct (Ascii.eqb c d); simpl; [lia|].
  destruct s as [|c' s'].
  - simpl. lia.
  - specialize (IH ltac:(discriminate)).
    destruct (getline d (String c' s')) as [[ok out] rest].
    simpl in *. lia.
Qed.

Lemma getline_ok (d : ascii) (s : istream) :
  fst (fst (getline d s)) = peekNotEOF s.
Proof.
  destruct s as [|c s]; [reflexivity|].
  simpl. destruct (Ascii.eqb c d); [reflexivity|].
  now destruct (getline d s) as [[ok out] rest].
Qed.

Lemma getline_until (d : ascii) (s1 s2 : string) :
  occurs d s1 = false ->
  getline d (s1 ++ String d s2) = (true, s1, s2).
Proof.
  induction s1 as [|c s1 IH]; simpl; intros H.
  - now rewrite Ascii.eqb_refl.
  - apply orb_false_iff in H. destruct H as [Hc Hs].
    rewrite Hc, (IH Hs). reflexivity.
Qed.

Lemma getline_whole (d : ascii) (s : string) :
  occurs d s = false ->
  getline d s = (peekNotEOF s, s, EmptyString).
Proof.
  induction s as [|c s IH]; simpl; intros H; [reflexivity|].
  apply orb_false_iff in H. destruct H as [Hc Hs].
  rewrite Hc, (IH Hs). reflexivity.
Qed.

(** The cells already read are kept in front. *)
Lemma readCells_app (fuel : nat) (s : istream) (data : list string) :
  readCells fuel s data = (data ++ readCells fuel s [])%list.
Proof.
  revert s data. induction fuel as [|fuel IH]; intros s data; simpl.
  - now rewrite app_nil_r.
  - destruct (getline comma s) as [[ok cell] rest]. destruct ok.
    + rewrite (IH rest (data ++ [cell])%list), (IH rest [cell]).
      now rewrite <- app_assoc.
    + now rewrite app_nil_r.
Qed.

(** Any fuel above the length of the line gives the same cells: the
    loop always stops because [getline] fails, never for lack of fuel. *)
Lemma readCells_fuel (n m : nat) (s : istream) (data : list string) :
  (String.length s < n)%nat -> (String.length s < m)%nat ->
  readCells n s data = readCells m s data.
Proof.
  revert m s data. induction n as [|n IH]; intros m s data Hn Hm; [lia|].
  destruct m as [|m]; [lia|]. simpl.
  destruct s as [|c s'].
  - reflexivity.
  - pose proof (getline_shorter comma (String c s') ltac:(discriminate)) as Hlt.
    pose proof (getline_ok comma (String c s')) as Hok.
    destruct (getline comma (String c s')) as [[ok cell] rest].
    simpl in Hlt, Hok, Hn, Hm. subst ok. apply IH; lia.
Qed.

Lemma splitCells_empty : splitCells EmptyString = [].
Proof. reflexivity. Qed.

Lemma readCells_step (fuel : nat) (s : istream) (data : list string)
  (cell : string) (rest : istream) :
  getline comma s = (true, cell, rest) ->
  readCells (S fuel) s data = readCells fuel rest (data ++ [cell])%list.
Proof. intros Hg. cbn [readCells]. now rewrite Hg. Qed.

Lemma splitCells_cons (s : string) (cell : string) (rest : istream) :
  getline comma s = (true, cell, rest) ->
  splitCells s = cell :: splitCells rest.
Proof.
  intros Hg. unfold splitCells.
  assert (Hne : s <> EmptyString) by (intros ->; discriminate).
  pose proof (getline_shorter comma s Hne) as Hlt.
  rewrite Hg in Hlt. cbn [snd] in Hlt.
  rewrite (readCells_step _ _ _ _ _ Hg), readCells_app.
  cbn [app]. f_equal. apply readCells_fuel; lia.
Qed.


(** ** [getNextCSVTransform], case by case *)

Lemma isComment_beginsWithHash (line : string) :
  isComment line = true <-> beginsWithHash line.
Proof.
  unfold beginsWithHash. destruct line as [|c line]; simpl.
  - split; [discriminate | intros [rest H]; discriminate].
  - rewrite Ascii.eqb_eq. split.
    + intros ->. now exists line.
    + intros [rest H]. now injection H.
Qed.

Lemma getNextCSVTransform_line (str : istream) (stamp : Timestamp)
  (T : Transform.t) :
  getNextCSVTransform str stamp T
  = let line := firstLine str in
    let str' := afterFirstLine str in
    if isComment line then mkCSVCall str' stamp T (Returned false)
    else
      let data := splitCells line in
      if (List.length data <? 9)%nat
      then mkCSVCall str' stamp T (Returned false)
      else
        match stoll (at_ data TIME) with
        | Thrown e => mkCSVCall str' stamp T (Thrown e)
        | Returned raw =>
            match parseTransform data with
            | Thrown e => mkCSVCall str' (Z.quot raw 1000) T (Thrown e)
            | Returned T' =>
                mkCSVCall str' (Z.quot raw 1000) T' (Returned true)
            end
        end.
Proof.
  unfold getNextCSVTransform, firstLine, afterFirstLine.
  now destruct (getline newline str) as [[ok line] str'].
Qed.

Lemma getNextCSVTransform_str_after (str : istream) (stamp : Timestamp)
  (T : Transform.t) :
  str_after (getNextCSVTransform str stamp T) = afterFirstLine str.
Proof.
  rewrite getNextCSVTransform_line. cbv zeta.
  destruct (isComment _); [reflexivity|].
  destruct (_ <? _)%nat; [reflexivity|].
  destruct (stoll _); [|reflexivity].
  now destruct (parseTransform _).
Qed.

(** One failing [stod] makes the whole constructor call fail. *)
Lemma parseTransform_raises (data : list string) (i : nat) :
  In i realColumns -> raises (stod (at_ data i)) ->
  raises (parseTransform data).
Proof.
  intros Hi [e He]. unfold parseTransform, raises.
  destruct (stod (at_ data X)) as [x|ex] eqn:Ex; [|now eexists].
  destruct (stod (at_ data Y)) as [y|ey] eqn:Ey; [|now eexists].
  destruct (stod (at_ data Z_)) as [z|ez] eqn:Ez; [|now eexists].
  destruct (stod (at_ data RW)) as [rw|erw] eqn:Erw; [|now eexists].
  destruct (stod (at_ data RX)) as [rx|erx] eqn:Erx; [|now eexists].
  destruct (stod (at_ data RY)) as [ry|ery] eqn:Ery; [|now eexists].
  destruct (stod (at_ data RZ)) as [rz|erz] eqn:Erz; [|now eexists].
  exfalso. simpl in Hi.
  repeat (destruct Hi as [<-|Hi]; [congruence|]). exact Hi.
Qed.



(** C8: when the line that the call reads begins with ['#'], or is cut
    into fewer than 9 cells, [getNextCSVTransform] returns [false] (it
    does not throw), and the iteration of [loadTformFromMaplabCSV] that
    made the call leaves the transform accumulator as it was. *)
Theorem C8_comment_or_short_line_gives_no_sample :
  forall (str : istream) (stamp : Timestamp) (T : Transform.t)
         (odom : Odom.t),
    beginsWithHash (firstLine str) \/
    (List.length (splitCells (firstLine str)) < 9)%nat ->
    result (getNextCSVTransform str stamp T) = Returned false /\
    csvBody str odom = Returned (afterFirstLine str, odom).
Proof.
  intros str stamp T odom H.
  assert (Hres : forall s t,
            result (getNextCSVTransform str s t) = Returned false).
  { intros s t. rewrite getNextCSVTransform_line. cbv zeta.
    destruct (isComment (firstLine str)) eqn:Ec; [reflexivity|].
    destruct H as [H|H].
    - apply isComment_beginsWithHash in H. congruence.
    - apply Nat.ltb_lt in H. now rewrite H. }
  split; [apply Hres|].
  unfold csvBody. rewrite Hres. simpl.
  now rewrite getNextCSVTransform_str_after.
Qed.

Lemma C8_witness :
  (List.length (splitCells (firstLine "17,0,1.0,2.0,3.0")) < 9)%nat /\
  result (getNextCSVTransform "17,0,1.0,2.0,3.0" 5 sampleTransform)
  = Returned false /\
  csvBody "17,0,1.0,2.0,3.0" Odom.init = Returned (EmptyString, Odom.init).
Proof.
  assert (H : (List.length (splitCells (firstLine "17,0,1.0,2.0,3.0")) < 9)%nat).
  { vm_compute. lia. }
  split; [exact H|].
  exact (C8_comment_or_short_line_gives_no_sample
           "17,0,1.0,2.0,3.0" 5 sampleTransform Odom.init (or_intror H)).
Defined.

(** C9, as far as it holds.  When the line that the call reads does not
    begin with ['#'] and is cut into at least 9 cells, and the timestamp
    cell is not the start of an integer or one of the translation and
    rotation cells is not the start of a real, [getNextCSVTransform]
    ends with an exception: it returns neither a sample nor [false]. *)
Theorem C9_unparsable_column_raises_on_data_line :
  forall (str : istream) (stamp : Timestamp) (T : Transform.t),
    ~ beginsWithHash (firstLine str) ->
    (9 <= List.length (splitCells (firstLine str)))%nat ->
    unparsableInteger (at_ (splitCells (firstLine str)) TIME) \/
    (exists i, In i realColumns /\
               unparsableReal (at_ (splitCells (firstLine str)) i)) ->
    raises (result (getNextCSVTransform str stamp T)) /\
    forall b, result (getNextCSVTransform str stamp T) <> Returned b.
Proof.
  intros str stamp T Hc Hlen Hbad.
  assert (Hr : raises (result (getNextCSVTransform str stamp T))).
  { rewrite getNextCSVTransform_line. cbv zeta.
    destruct (isComment (firstLine str)) eqn:Ec.
    { apply isComment_beginsWithHash in Ec. contradiction. }
    destruct (_ <? 9)%nat eqn:El.
    { apply Nat.ltb_lt in El. lia. }
    destruct Hbad as [Ht | [i [Hi Hs]]].
    - unfold unparsableInteger in Ht. rewrite Ht. now eexists.
    - destruct (stoll _); [|now eexists].
      destruct (parseTransform_raises (splitCells (firstLine str)) i Hi)
        as [e He]; [exists invalid_argument; exact Hs|].
      rewrite He. now eexists. }
  split; [exact Hr|].
  intros b Hb. destruct Hr as [e He]. congruence.
Qed.

Lemma C9_witness :
  ~ beginsWithHash (firstLine "1000000,0,1.0,east,3.0,1.0,0.0,0.0,0.0") /\
  (9 <= List.length (splitCells
          (firstLine "1000000,0,1.0,east,3.0,1.0,0.0,0.0,0.0")))%nat /\
  unparsableReal
    (at_ (splitCells (firstLine "1000000,0,1.0,east,3.0,1.0,0.0,0.0,0.0")) Y) /\
  raises (result (getNextCSVTransform
                    "1000000,0,1.0,east,3.0,1.0,0.0,0.0,0.0"
                    0 Transform.default)).
Proof.
  assert (Hc : ~ beginsWithHash
                 (firstLine "1000000,0,1.0,east,3.0,1.0,0.0,0.0,0.0")).
  { intros [rest H]. vm_compute in H. discriminate. }
  assert (Hlen : (9 <= List.length (splitCells
             (firstLine "1000000,0,1.0,east,3.0,1.0,0.0,0.0,0.0")))%nat).
  { vm_compute. lia. }
  assert (Hy : unparsableReal
             (at_ (splitCells
                (firstLine "1000000,0,1.0,east,3.0,1.0,0.0,0.0,0.0")) Y)).
  { reflexivity. }
  split; [exact Hc|]. split; [exact Hlen|]. split; [exact Hy|].
  apply (C9_unparsable_column_raises_on_data_line
           "1000000,0,1.0,east,3.0,1.0,0.0,0.0,0.0" 0 Transform.default
           Hc Hlen).
  right. exists Y. split; [|exact Hy]. right. left. reflexivity.
Defined.

(** C9 as it is worded fails on a comment line: the header line has nine
    cells and its timestamp cell is no number, yet the call returns
    [false] and throws nothing. *)
Lemma C9_comment_line_with_nine_cells_returns_false :
  (9 <= List.length (splitCells (firstLine headerLine)))%nat /\
  unparsableInteger (at_ (splitCells (firstLine headerLine)) TIME) /\
  result (getNextCSVTransform headerLine 0 Transform.default)
  = Returned false /\
  ~ raises (result (getNextCSVTransform headerLine 0 Transform.default)).
Proof.
  split; [vm_compute; lia|]. split; [reflexivity|].
  split; [reflexivity|].
  intros [e He]. vm_compute in He. discriminate.
Qed.

(** C10, as far as it holds.  When [getNextCSVTransform] returns
    [false], which it does only for a comment line or a line of fewer
    than 9 cells, [*stamp] and [*T] hold what the caller had put there.
    [*T] is written only by a call that returns [true].  [*stamp] is
    written at line 219, once the line has passed both guards and
    [std::stoll] has returned: by a call that returns [true], or by one
    that then ends with an exception of [std::stod]; never by a call
    that returns [false]. *)
Theorem C10_false_return_leaves_outputs_untouched :
  forall (str : istream) (stamp : Timestamp) (T : Transform.t),
    (result (getNextCSVTransform str stamp T) = Returned false ->
     stamp_after (getNextCSVTransform str stamp T) = stamp /\
     T_after (getNextCSVTransform str stamp T) = T /\
     (isComment (firstLine str) = true \/
      (List.length (splitCells (firstLine str)) < 9)%nat)) /\
    (T_after (getNextCSVTransform str stamp T) <> T ->
     result (getNextCSVTransform str stamp T) = Returned true) /\
    (stamp_after (getNextCSVTransform str stamp T) <> stamp ->
     isComment (firstLine str) = false /\
     (9 <= List.length (splitCells (firstLine str)))%nat /\
     (exists raw,
        stoll (at_ (splitCells (firstLine str)) TIME) = Returned raw /\
        stamp_after (getNextCSVTransform str stamp T) = Z.quot raw 1000) /\
     (result (getNextCSVTransform str stamp T) = Returned true \/
      (raises (parseTransform (splitCells (firstLine str))) /\
       raises (result (getNextCSVTransform str stamp T)) /\
       T_after (getNextCSVTransform str stamp T) = T))).
Proof.
  intros str stamp T. rewrite getNextCSVTransform_line. cbv zeta.
  destruct (isComment (firstLine str)) eqn:Ec.
  { simpl. split; [intros _; auto|]. split; congruence. }
  destruct (_ <? 9)%nat eqn:El.
  { apply Nat.ltb_lt in El. simpl.
    split; [intros _; auto|]. split; congruence. }
  apply Nat.ltb_ge in El.
  destruct (stoll _) as [raw|e].
  - destruct (parseTransform _) as [T'|e]; simpl;
      (split; [discriminate|]); (split; [congruence|]); intros _;
      (split; [reflexivity|]); (split; [exact El|]);
      (split; [exists raw; split; reflexivity|]).
    + left. reflexivity.
    + right. split; [now eexists|]. split; [now eexists | reflexivity].
  - simpl. split; [discriminate|]. split; congruence.
Qed.

Lemma C10_witness :
  (result (getNextCSVTransform "# a comment" 42 sampleTransform)
   = Returned false /\
   stamp_after (getNextCSVTransform "# a comment" 42 sampleTransform) = 42 /\
   T_after (getNextCSVTransform "# a comment" 42 sampleTransform)
   = sampleTransform) /\
  (stamp_after
     (getNextCSVTransform "1000000,0,1.0,east,3.0,1.0,0.0,0.0,0.0"
        42 Transform.default) <> 42 /\
   T_after
     (getNextCSVTransform "1000000,0,1.0,east,3.0,1.0,0.0,0.0,0.0"
        42 Transform.default) = Transform.default).
Proof.
  split.
  - assert (H : result (getNextCSVTransform "# a comment" 42 sampleTransform)
                = Returned false) by reflexivity.
    split; [exact H|].
    destruct (proj1 (C10_false_return_leaves_outputs_untouched
                       "# a comment" 42 sampleTransform) H) as [Hs [HT _]].
    split; [exact Hs | exact HT].
  - assert (H : stamp_after
                  (getNextCSVTransform
                     "1000000,0,1.0,east,3.0,1.0,0.0,0.0,0.0"
                     42 Transform.default) <> 42).
    { vm_compute. discriminate. }
    split; [exact H|].
    destruct (proj2 (proj2 (C10_false_return_leaves_outputs_untouched
                "1000000,0,1.0,east,3.0,1.0,0.0,0.0,0.0"
                42 Transform.default)) H)
      as [_ [_ [_ [Htrue | [_ [_ HT]]]]]].
    + vm_compute in Htrue. discriminate.
    + exact HT.
Defined.

(** C10 as it is worded fails for the timestamp: on a data line whose
    timestamp cell is a number and whose translation has a word in it,
    the call ends with an exception, and [*stamp] has been overwritten
    all the same. *)
Lemma C10_stamp_is_written_before_stod_throws :
  result (getNextCSVTransform "1000000,0,1.0,east,3.0,1.0,0.0,0.0,0.0"
            42 sampleTransform)
  = Thrown invalid_argument /\
  stamp_after (getNextCSVTransform "1000000,0,1.0,east,3.0,1.0,0.0,0.0,0.0"
                 42 sampleTransform)
  = 1000 /\
  stamp_after (getNextCSVTransform "1000000,0,1.0,east,3.0,1.0,0.0,0.0,0.0"
                 42 sampleTransform)
  <> 42 /\
  result (getNextCSVTransform "1000000,0,1.0,east,3.0,1.0,0.0,0.0,0.0"
            42 sampleTransform)
  <> Returned true.
Proof.
  split; [vm_compute; reflexivity|]. split; [vm_compute; reflexivity|].
  split; vm_compute; discriminate.
Qed.

(** ** Views *)

Lemma View_poses (bag : Bag) :
  View bag ["geometry_msgs/PoseStamped"] = map PoseStampedMsg (posesOf bag).
Proof.
  unfold View, posesOf. induction bag as [|m bag IH]; [reflexivity|].
  destruct m; simpl; try apply f_equal; exact IH.
Qed.

Lemma View_clouds (bag : Bag) :
  View bag pointcloudTypes = map PointCloud2Msg (cloudsOf bag).
Proof.
  unfold View, cloudsOf. induction bag as [|m bag IH]; [reflexivity|].
  destruct m; simpl; try apply f_equal; exact IH.
Qed.

(** ** Pose timestamps *)

Lemma wrap64_small (n : Z) : - 2 ^ 63 <= n < 2 ^ 63 -> wrap64 n = n.
Proof.
  intros H. unfold wrap64. rewrite Z.mod_small; lia.
Qed.

Lemma poseStamp_exact (msg : PoseStamped) :
  stampInRange msg ->
  poseStamp msg = stamp_sec msg * 1000000 + stamp_nsec msg / 1000.
Proof.
  intros [Hs Hn]. unfold poseStamp, to_uint32.
  rewrite !Z.mod_small by assumption.
  rewrite Z.quot_div_nonneg by lia.
  assert (0 <= stamp_nsec msg / 1000 < 2 ^ 32).
  { split; [apply Z.div_pos; lia|].
    apply Z.div_lt_upper_bound; lia. }
  rewrite (wrap64_small (stamp_sec msg * 1000000)) by lia.
  apply wrap64_small. lia.
Qed.

Lemma tformLoop_poses (poses : list PoseStamped) (odom : Odom.t) :
  tformLoop (map PoseStampedMsg poses) odom
  = (odom ++ map (fun msg => (poseStamp msg, poseTransform msg)) poses)%list.
Proof.
  revert odom. induction poses as [|msg poses IH]; intros odom; simpl.
  - now rewrite app_nil_r.
  - rewrite IH. unfold Odom.addTransformData. now rewrite <- app_assoc.
Qed.

(** C7: the timestamp of a pose sample whose time is (seconds,
    nanoseconds) is [seconds * 1000000 + nanoseconds / 1000], in integer
    arithmetic; a load stores every sample of the container under that
    timestamp; and seconds = 5 with nanoseconds = 500000000 gives
    5500000. *)
Theorem C7_pose_timestamp_is_microseconds :
  (forall msg : PoseStamped,
     stampInRange msg ->
     poseStamp msg = stamp_sec msg * 1000000 + stamp_nsec msg / 1000) /\
  (forall (bags : BagStore) (bag_path : string) (bag : Bag) (odom : Odom.t),
     bags bag_path = Some bag ->
     Forall stampInRange (posesOf bag) ->
     snd (loadTformFromROSBag bags bag_path odom)
     = (odom ++
        map (fun msg =>
               (stamp_sec msg * 1000000 + stamp_nsec msg / 1000,
                poseTransform msg))
            (posesOf bag))%list) /\
  (forall msg : PoseStamped,
     stamp_sec msg = 5 -> stamp_nsec msg = 500000000 ->
     poseStamp msg = 5500000).
Proof.
  split; [exact poseStamp_exact|]. split.
  - intros bags bag_path bag odom Hopen Hall.
    unfold loadTformFromROSBag. rewrite Hopen, View_poses, tformLoop_poses.
    cbv zeta.
    assert (Hsnd : forall o : Odom.t,
              snd (if Odom.empty o then (false, o) else (true, o)) = o).
    { intros o. now destruct (Odom.empty o). }
    rewrite Hsnd. f_equal.
    apply map_ext_in. intros msg Hin.
    rewrite Forall_forall in Hall.
    now rewrite (poseStamp_exact msg (Hall msg Hin)).
  - intros msg Hs Hn. unfold poseStamp. rewrite Hs, Hn. reflexivity.
Qed.

Lemma C7_witness :
  stampInRange samplePose /\
  poseStamp samplePose = 5500000 /\
  snd (loadTformFromROSBag (oneBag [OtherMsg; PoseStampedMsg samplePose])
                           "poses.bag" Odom.init)
  = [(5500000, poseTransform samplePose)].
Proof.
  assert (Hr : stampInRange samplePose).
  { unfold stampInRange. simpl. lia. }
  split; [exact Hr|]. split.
  - exact (proj2 (proj2 C7_pose_timestamp_is_microseconds)
             samplePose eq_refl eq_refl).
  - rewrite (proj1 (proj2 C7_pose_timestamp_is_microseconds)
               (oneBag [OtherMsg; PoseStampedMsg samplePose]) "poses.bag"
               [OtherMsg; PoseStampedMsg samplePose] Odom.init eq_refl).
    + reflexivity.
    + simpl. constructor; [exact Hr | constructor].
Defined.

(** ** The CSV load loop *)

Lemma csvBody_stream (file : istream) (odom : Odom.t)
  (st : istream * Odom.t) :
  csvBody file odom = Returned st -> fst st = afterFirstLine file.
Proof.
  unfold csvBody.
  pose proof (getNextCSVTransform_str_after file 0 Transform.default) as Hs.
  destruct (result (getNextCSVTransform file 0 Transform.default))
    as [[|]|e]; simpl; intros H; try discriminate;
    injection H as <-; exact Hs.
Qed.

(** Any fuel above the length of the file gives the same result: the
    loop always stops at the end of the file or on an exception, never
    for lack of fuel. *)
Lemma csvLoop_fuel (n m : nat) (file : istream) (odom : Odom.t) :
  (String.length file < n)%nat -> (String.length file < m)%nat ->
  csvLoop n file odom = csvLoop m file odom.
Proof.
  revert m file odom.
  induction n as [|n IH]; intros m file odom Hn Hm; [lia|].
  destruct m as [|m]; [lia|]. cbn [csvLoop].
  destruct file as [|c file']; [reflexivity|]. cbn [peekNotEOF].
  destruct (csvBody (String c file') odom) as [st|e] eqn:Eb; [|reflexivity].
  cbn [bind]. apply csvBody_stream in Eb.
  pose proof (getline_shorter newline (String c file') ltac:(discriminate))
    as Hlt.
  fold (afterFirstLine (String c file')) in Hlt. rewrite <- Eb in Hlt.
  apply IH; lia.
Qed.

Lemma loadTformFromMaplabCSV_unopened (fs : FileSystem) (csv_path : string)
  (odom : Odom.t) :
  fs csv_path = None ->
  loadTformFromMaplabCSV fs csv_path odom = Returned (true, odom).
Proof.
  intros H. unfold loadTformFromMaplabCSV, ifstream. now rewrite H.
Qed.

(** The call never returns [false]. *)
Lemma loadTformFromMaplabCSV_never_false (fs : FileSystem)
  (csv_path : string) (odom odom' : Odom.t) :
  loadTformFromMaplabCSV fs csv_path odom <> Returned (false, odom').
Proof.
  unfold loadTformFromMaplabCSV.
  destruct (csvLoop _ _ _); simpl; congruence.
Qed.

(** ** The bag loaders on a path that does not open, and on a container
    with nothing to load *)

Lemma loadPointcloudFromROSBag_unopened (bags : BagStore) (config_ : Config)
  (bag_path : string) (scan_config : ScanConfig) (lidar : Lidar.t) :
  bags bag_path = None ->
  loadPointcloudFromROSBag bags config_ bag_path scan_config lidar
  = (false, lidar) /\
  loadPointcloudStates bags config_ bag_path scan_config lidar = [lidar].
Proof.
  intros H. unfold loadPointcloudFromROSBag, loadPointcloudStates.
  now rewrite H.
Qed.

Lemma loadTformFromROSBag_unopened (bags : BagStore) (bag_path : string)
  (odom : Odom.t) :
  bags bag_path = None ->
  loadTformFromROSBag bags bag_path odom = (false, odom).
Proof. intros H. unfold loadTformFromROSBag. now rewrite H. Qed.

Lemma loadPointcloudFromROSBag_result (bags : BagStore) (config_ : Config)
  (bag_path : string) (scan_config : ScanConfig) (lidar : Lidar.t)
  (bag : Bag) :
  bags bag_path = Some bag ->
  loadPointcloudFromROSBag bags config_ bag_path scan_config lidar
  = (negb (Lidar.getTotalPoints
             (scanLoop config_ scan_config (View bag pointcloudTypes) lidar)
           =? 0)%nat,
     scanLoop config_ scan_config (View bag pointcloudTypes) lidar).
Proof.
  intros H. unfold loadPointcloudFromROSBag. rewrite H. cbv zeta.
  now destruct (_ =? 0)%nat.
Qed.

(** A container without a point-cloud record: the scan load fails. *)
Lemma loadPointcloudFromROSBag_no_records (bags : BagStore)
  (config_ : Config) (bag_path : string) (scan_config : ScanConfig)
  (bag : Bag) :
  bags bag_path = Some bag -> cloudsOf bag = [] ->
  loadPointcloudFromROSBag bags config_ bag_path scan_config Lidar.init
  = (false, Lidar.init).
Proof.
  intros H Hnone.
  rewrite (loadPointcloudFromROSBag_result _ _ _ _ _ bag H).
  now rewrite View_clouds, Hnone.
Qed.

(** Whatever was read, zero points in total is a failure. *)
Lemma loadPointcloudFromROSBag_zero_points (bags : BagStore)
  (config_ : Config) (bag_path : string) (scan_config : ScanConfig)
  (lidar : Lidar.t) (bag : Bag) :
  bags bag_path = Some bag ->
  Lidar.getTotalPoints
    (snd (loadPointcloudFromROSBag bags config_ bag_path scan_config lidar))
  = 0%nat ->
  fst (loadPointcloudFromROSBag bags config_ bag_path scan_config lidar)
  = false.
Proof.
  intros H. rewrite (loadPointcloudFromROSBag_result _ _ _ _ _ bag H).
  cbn [fst snd]. now intros ->.
Qed.

(** A container without a pose sample: the transform load fails. *)
Lemma loadTformFromROSBag_no_records (bags : BagStore) (bag_path : string)
  (bag : Bag) :
  bags bag_path = Some bag -> posesOf bag = [] ->
  loadTformFromROSBag bags bag_path Odom.init = (false, Odom.init).
Proof.
  intros H Hnone. unfold loadTformFromROSBag.
  now rewrite H, View_poses, Hnone.
Qed.

(** C4, where the code departs from it.  A CSV file that opens and is
    read to its end without a single sample, an empty file or one with
    only a header line, makes [loadTformFromMaplabCSV] return [true]
    with an empty accumulator, where the two bag loaders return
    [false]. *)
Theorem C4_csv_load_without_samples_reports_success :
  loadTformFromMaplabCSV (oneFile EmptyString) "poses.csv" Odom.init
  = Returned (true, Odom.init) /\
  loadTformFromMaplabCSV (oneFile headerLine) "poses.csv" Odom.init
  = Returned (true, Odom.init) /\
  loadTformFromROSBag (oneBag []) "poses.bag" Odom.init
  = (false, Odom.init) /\
  loadPointcloudFromROSBag (oneBag []) (mkConfig INT_MAX) "scans.bag"
                           mkScanConfig Lidar.init
  = (false, Lidar.init).
Proof. repeat split; reflexivity. Qed.

(** C5, where the code departs from it.  On a path that cannot be
    opened [loadTformFromMaplabCSV] returns [true]: nothing is decoded
    and the accumulator is untouched, but no failure is reported, where
    the two bag loaders return [false]. *)
Theorem C5_csv_load_of_unopenable_path_reports_success :
  forall (csv_path : string) (odom : Odom.t) (config_ : Config)
         (scan_config : ScanConfig) (lidar : Lidar.t),
    loadTformFromMaplabCSV noFiles csv_path odom = Returned (true, odom) /\
    loadTformFromROSBag noBags csv_path odom = (false, odom) /\
    loadPointcloudFromROSBag noBags config_ csv_path scan_config lidar
    = (false, lidar).
Proof. intros. repeat split; reflexivity. Qed.

(** ** The scan load loop and the cap *)

Lemma scanCount_nonneg (lidar : Lidar.t) : 0 <= scanCount lidar.
Proof. unfold scanCount. lia. Qed.

Lemma scanCount_scanBody (scan_config : ScanConfig) (msg : PointCloud2)
  (lidar : Lidar.t) :
  scanCount (scanBody scan_config msg lidar) = scanCount lidar + 1.
Proof.
  unfold scanCount, scanBody, Lidar.getNumberOfScans, Lidar.addPointcloud.
  cbn [Lidar.scans]. rewrite length_app. simpl. lia.
Qed.

(** Below [INT_MAX] the comparison of line 100 is the plain one. *)
Lemma capReached_plain (config_ : Config) (lidar : Lidar.t) :
  0 <= use_n_scans config_ <= INT_MAX ->
  scanCount lidar <= INT_MAX ->
  capReached config_ lidar = (use_n_scans config_ <=? scanCount lidar).
Proof.
  intros Hk Hc. unfold capReached, to_size_t. fold (scanCount lidar).
  assert (0 <= scanCount lidar) by (unfold scanCount; lia).
  unfold INT_MAX in *. rewrite !Z.mod_small; [reflexivity | lia | lia].
Qed.

Lemma last_cons_default {A : Type} (l : list A) (a d : A) :
  last (a :: l) d = last l a.
Proof.
  revert a d. induction l as [|b l IH]; intros a d; [reflexivity|].
  change (last (a :: b :: l) d) with (last (b :: l) d).
  now rewrite (IH b d), (IH b a).
Qed.

(** The trace ends in the state that the loop returns. *)
Lemma scanTrace_last (config_ : Config) (scan_config : ScanConfig)
  (view : list MessageInstance) (lidar : Lidar.t) :
  last (scanTrace config_ scan_config view lidar) lidar
  = scanLoop config_ scan_config view lidar.
Proof.
  revert lidar. induction view as [|m view IH]; intros lidar; [reflexivity|].
  cbn [scanTrace scanLoop]. destruct (instantiatePointCloud2 m) as [msg|].
  - cbv zeta. destruct (capReached _ _); [reflexivity|].
    rewrite <- IH. apply last_cons_default.
  - apply IH.
Qed.

Section Cap.
Variable config_ : Config.
Variable scan_config : ScanConfig.
Hypothesis cap_is_int : 0 <= use_n_scans config_ <= INT_MAX.

(** The loop stops at the cap, or at one scan when the cap is 0: at
    [Z.max (use_n_scans config_) 1]. *)

Lemma scanLoop_count (msgs : list PointCloud2) (lidar : Lidar.t) :
  scanCount lidar < Z.max (use_n_scans config_) 1 ->
  scanCount
    (scanLoop config_ scan_config (map PointCloud2Msg msgs) lidar)
  = Z.min (scanCount lidar + Z.of_nat (List.length msgs))
        (Z.max (use_n_scans config_) 1).
Proof.
  revert lidar. induction msgs as [|msg msgs IH]; intros lidar Hlt.
  - simpl. lia.
  - cbn [map scanLoop instantiatePointCloud2]. cbv zeta.
    pose proof (scanCount_scanBody scan_config msg lidar) as Hadd.
    pose proof (scanCount_nonneg lidar) as Hpos.
    rewrite capReached_plain by (unfold INT_MAX in *; lia).
    destruct (Z.leb_spec (use_n_scans config_)
                (scanCount (scanBody scan_config msg lidar))) as [Hle|Hgt].
    + rewrite Hadd in *. cbn [List.length]. lia.
    + rewrite IH by (lia).
      rewrite Hadd in *. cbn [List.length]. lia.
Qed.

Lemma scanTrace_bounded (msgs : list PointCloud2) (lidar : Lidar.t) :
  scanCount lidar < Z.max (use_n_scans config_) 1 ->
  Forall (fun l => scanCount l <= Z.max (use_n_scans config_) 1)
    (scanTrace config_ scan_config (map PointCloud2Msg msgs) lidar).
Proof.
  revert lidar. induction msgs as [|msg msgs IH]; intros lidar Hlt.
  - constructor.
  - cbn [map scanTrace instantiatePointCloud2]. cbv zeta.
    pose proof (scanCount_scanBody scan_config msg lidar) as Hadd.
    pose proof (scanCount_nonneg lidar) as Hpos.
    rewrite capReached_plain by (unfold INT_MAX in *; lia).
    destruct (Z.leb_spec (use_n_scans config_)
                (scanCount (scanBody scan_config msg lidar))) as [Hle|Hgt].
    + constructor; [lia | constructor].
    + constructor; [lia|].
      apply IH. lia.
Qed.
End Cap.

(** C3, as far as it holds.  With a cap [K] between 1 and [INT_MAX], a
    load into an empty accumulator from a container with more than [K]
    point-cloud records ends with exactly [K] scans, and no state that
    the accumulator goes through during the load holds more than [K]
    scans.  With the cap 0 the first record is still added, and the load
    ends with one scan. *)
Theorem C3_load_stops_at_the_cap :
  forall (bags : BagStore) (config_ : Config) (bag_path : string)
         (scan_config : ScanConfig) (bag : Bag),
    bags bag_path = Some bag ->
    0 <= use_n_scans config_ <= INT_MAX ->
    use_n_scans config_ < Z.of_nat (List.length (View bag pointcloudTypes)) ->
    let K := Z.max (use_n_scans config_) 1 in
    let states :=
      loadPointcloudStates bags config_ bag_path scan_config Lidar.init in
    let final :=
      snd (loadPointcloudFromROSBag bags config_ bag_path scan_config
                                    Lidar.init) in
    scanCount final = K /\
    Forall (fun lidar => scanCount lidar <= K) states /\
    last states Lidar.init = final.
Proof.
  intros bags config_ bag_path scan_config bag Hopen Hk Hmore K states final.
  unfold states, final, loadPointcloudStates.
  rewrite (loadPointcloudFromROSBag_result _ _ _ _ _ bag Hopen), Hopen.
  cbn [snd]. rewrite View_clouds in *. rewrite length_map in Hmore.
  assert (H0 : scanCount Lidar.init < K).
  { change (scanCount Lidar.init) with 0. unfold K. lia. }
  split; [|split].
  - rewrite (scanLoop_count config_ scan_config Hk _ _ H0).
    change (scanCount Lidar.init) with 0. unfold K in *. lia.
  - constructor; [change (scanCount Lidar.init) with 0; unfold K; lia|].
    exact (scanTrace_bounded config_ scan_config Hk _ _ H0).
  - rewrite <- scanTrace_last. apply last_cons_default.
Qed.

Lemma C3_witness :
  oneBag threeScanBag "scans.bag" = Some threeScanBag /\
  0 <= use_n_scans (mkConfig 2) <= INT_MAX /\
  use_n_scans (mkConfig 2)
  < Z.of_nat (List.length (View threeScanBag pointcloudTypes)) /\
  scanCount
    (snd (loadPointcloudFromROSBag (oneBag threeScanBag) (mkConfig 2)
            "scans.bag" mkScanConfig Lidar.init))
  = 2.
Proof.
  assert (Hk : 0 <= use_n_scans (mkConfig 2) <= INT_MAX).
  { unfold INT_MAX. simpl. lia. }
  assert (Hmore : use_n_scans (mkConfig 2)
            < Z.of_nat (List.length (View threeScanBag pointcloudTypes))).
  { vm_compute. reflexivity. }
  split; [reflexivity|]. split; [exact Hk|]. split; [exact Hmore|].
  exact (proj1 (C3_load_stops_at_the_cap (oneBag threeScanBag) (mkConfig 2)
                  "scans.bag" mkScanConfig threeScanBag eq_refl Hk Hmore)).
Defined.

(** C3 as it is worded fails for the cap 0: the container holds more than
    0 records, and the load ends with one scan, which is neither 0 scans
    nor at most 0. *)
Lemma C3_cap_zero_loads_one_scan :
  use_n_scans (mkConfig 0)
  < Z.of_nat (List.length (View oneScanBag pointcloudTypes)) /\
  scanCount
    (snd (loadPointcloudFromROSBag (oneBag oneScanBag) (mkConfig 0)
            "scans.bag" mkScanConfig Lidar.init))
  = 1 /\
  ~ (scanCount
       (snd (loadPointcloudFromROSBag (oneBag oneScanBag) (mkConfig 0)
               "scans.bag" mkScanConfig Lidar.init))
     <= use_n_scans (mkConfig 0)).
Proof.
  split; [vm_compute; reflexivity|]. split; [reflexivity|].
  vm_compute. intros H. apply H. reflexivity.
Qed.

(** ** Cells and commas *)

Lemma getline_count (d : ascii) (s : istream) :
  countChar d s
  = (countChar d (snd (getline d s)) + if occurs d s then 1 else 0)%nat /\
  (occurs d s = false -> snd (getline d s) = EmptyString).
Proof.
  induction s as [|c s [IHc IHe]]; simpl; [split; reflexivity|].
  destruct (Ascii.eqb c d) eqn:E; simpl.
  - split; [lia | discriminate].
  - destruct (getline d s) as [[ok out] rest]. simpl in *.
    split; [exact IHc | exact IHe].
Qed.

(** A line is cut into at most one cell more than it has commas. *)
Lemma splitCells_length (line : string) :
  (List.length (splitCells line) <= S (countChar comma line))%nat.
Proof.
  remember (String.length line) as n eqn:Hn.
  revert line Hn. induction n as [n IH] using lt_wf_ind. intros line Hn.
  destruct line as [|c line'].
  - simpl. lia.
  - pose proof (getline_shorter comma (String c line') ltac:(discriminate))
      as Hlt.
    pose proof (getline_ok comma (String c line')) as Hok.
    destruct (getline_count comma (String c line')) as [Hc He].
    destruct (getline comma (String c line')) as [[ok cell] rest] eqn:Eg.
    cbn [fst snd peekNotEOF] in *. subst ok.
    rewrite (splitCells_cons _ _ _ Eg). cbn [List.length].
    destruct (occurs comma (String c line')) eqn:Eo.
    + specialize (IH (String.length rest) ltac:(lia) rest eq_refl). lia.
    + rewrite (He eq_refl). simpl. lia.
Qed.

(** A line with fewer than 8 commas gives no sample. *)
Lemma few_commas_no_sample (str : istream) (stamp : Timestamp)
  (T : Transform.t) :
  (countChar comma (firstLine str) < 8)%nat ->
  result (getNextCSVTransform str stamp T) = Returned false.
Proof.
  intros H. pose proof (splitCells_length (firstLine str)) as Hl.
  rewrite getNextCSVTransform_line. cbv zeta.
  destruct (isComment _); [reflexivity|].
  assert (Hlt : (List.length (splitCells (firstLine str)) <? 9)%nat = true).
  { apply Nat.ltb_lt. lia. }
  now rewrite Hlt.
Qed.

(** ** What [std::stoll] cannot parse *)

Lemma readDigits_count (dig : ascii -> option Z) (base acc : Z) (count : nat)
  (s : string) :
  (count <= snd (fst (Chars.readDigits dig base acc count s)))%nat.
Proof.
  revert acc count. induction s as [|c s IH]; intros acc count; simpl.
  - lia.
  - destruct (dig c); simpl; [|lia].
    specialize (IH (acc * base + z) (S count)). lia.
Qed.

(** [std::stoll] throws [std::invalid_argument] exactly when no digit
    follows the white space and the sign. *)
Lemma unparsableInteger_iff (cell : string) :
  unparsableInteger cell <->
  startsWithDigit (snd (Chars.readSign (Chars.skipSpace cell))) = false.
Proof.
  unfold unparsableInteger, stoll.
  destruct (Chars.readSign (Chars.skipSpace cell)) as [neg s]. cbn [snd].
  destruct s as [|c s]; simpl; [tauto|].
  destruct (Chars.digit c) as [d|] eqn:Ed; [|tauto].
  pose proof (readDigits_count Chars.digit 10 d 1%nat s) as Hc.
  destruct (Chars.readDigits Chars.digit 10 d 1%nat s) as [[n count] rest].
  simpl in Hc. destruct count as [|count]; [lia|].
  split; [|discriminate].
  destruct (_ && _); discriminate.
Qed.

(** ** What [std::stod] cannot parse *)

Lemma unparsable_empty :
  unparsableInteger EmptyString /\ unparsableReal EmptyString.
Proof. split; reflexivity. Qed.

(** A cell whose first character cannot start a number is unparsable,
    whatever follows. *)
Lemma unparsable_first_char (c : ascii) (rest : string) :
  numberStart c = false ->
  unparsableInteger (String c rest) /\ unparsableReal (String c rest).
Proof.
  unfold unparsableInteger, unparsableReal.
  destruct c as [b0 b1 b2 b3 b4 b5 b6 b7].
  destruct b0, b1, b2, b3, b4, b5, b6, b7;
    intros H; try discriminate H; split; reflexivity.
Qed.

(** * Further properties *)

(** ** [parsePointcloudMsg] and the cloud it is given *)

(** X1: a record without [time_offset_us] is appended to the cloud: the
    points that the cloud held before the call stay in front, the rows of
    the record whose required fields are finite follow in the order of
    the record, and the header becomes the record's header. *)
Theorem X1_untimed_record_is_appended_in_order :
  forall (msg : PointCloud2) (pointcloud : LoaderPointcloud),
    ~ declares msg "time_offset_us" ->
    points (parsePointcloudMsg msg pointcloud)
    = (points pointcloud ++
       map (rowPoint msg) (filter (requiredFinite msg) (data msg)))%list /\
    header (parsePointcloudMsg msg pointcloud) = msg_header msg.
Proof.
  intros msg pc Hd. split; [|apply parsePointcloudMsg_header].
  apply parsePointcloudMsg_filtered.
  destruct (declaresb (fields msg) "time_offset_us") eqn:E; [|reflexivity].
  apply declaresb_In in E. contradiction.
Qed.

Lemma X1_witness :
  ~ declares bareMsg "time_offset_us" /\
  cloudSize (parsePointcloudMsg bareMsg
               (parsePointcloudMsg intensityMsg emptyCloud)) = 2%nat.
Proof.
  assert (Hd : ~ declares bareMsg "time_offset_us").
  { unfold declares. simpl. intros [H|[H|[H|[]]]]; discriminate. }
  split; [exact Hd|]. unfold cloudSize.
  rewrite (proj1 (X1_untimed_record_is_appended_in_order bareMsg
                    (parsePointcloudMsg intensityMsg emptyCloud) Hd)).
  reflexivity.
Defined.

(** X2: a record without [time_offset_us] whose rows all have finite
    required fields loses no point: decoded into a fresh cloud it gives
    as many points as it has rows, the point of each row in order. *)
Theorem X2_finite_record_is_kept_whole :
  forall msg : PointCloud2,
    ~ declares msg "time_offset_us" ->
    Forall (fun row => requiredFinite msg row = true) (data msg) ->
    points (parsePointcloudMsg msg emptyCloud)
    = map (rowPoint msg) (data msg) /\
    cloudSize (parsePointcloudMsg msg emptyCloud) = msgSize msg.
Proof.
  intros msg Hd Hall.
  assert (Ht : declaresb (fields msg) "time_offset_us" = false).
  { destruct (declaresb (fields msg) "time_offset_us") eqn:E; [|reflexivity].
    apply declaresb_In in E. contradiction. }
  assert (Hf : filter (requiredFinite msg) (data msg) = data msg).
  { apply forallb_filter_id. apply forallb_forall.
    rewrite Forall_forall in Hall. exact Hall. }
  assert (Hp : points (parsePointcloudMsg msg emptyCloud)
               = map (rowPoint msg) (data msg)).
  { rewrite (parsePointcloudMsg_filtered msg emptyCloud Ht), Hf.
    reflexivity. }
  split; [exact Hp|]. unfold cloudSize, msgSize. rewrite Hp.
  apply length_map.
Qed.

Lemma X2_witness :
  ~ declares (mkMsg sampleHeader (fields bareMsg) (firstn 1 (data bareMsg)))
      "time_offset_us" /\
  cloudSize
    (parsePointcloudMsg
       (mkMsg sampleHeader (fields bareMsg) (firstn 1 (data bareMsg)))
       emptyCloud) = 1%nat.
Proof.
  assert (Hd : ~ declares
             (mkMsg sampleHeader (fields bareMsg) (firstn 1 (data bareMsg)))
             "time_offset_us").
  { unfold declares. simpl. intros [H|[H|[H|[]]]]; discriminate. }
  split; [exact Hd|].
  refine (proj2 (X2_finite_record_is_kept_whole _ Hd _)).
  simpl. constructor; [reflexivity | constructor].
Defined.

(** ** [std::getline], once more *)

(** The line has no delimiter in it, and the text is the line, the
    delimiter and the rest, or the line alone. *)
Lemma getline_split (d : ascii) (s : istream) :
  occurs d (snd (fst (getline d s))) = false /\
  (occurs d s = true ->
   s = snd (fst (getline d s)) ++ String d (snd (getline d s))) /\
  (occurs d s = false ->
   snd (fst (getline d s)) = s /\ snd (getline d s) = EmptyString).
Proof.
  induction s as [|c s [IHn [IHt IHf]]]; simpl.
  - split; [reflexivity|]. split; [discriminate | tauto].
  - destruct (Ascii.eqb c d) eqn:E; simpl.
    + apply Ascii.eqb_eq in E. subst c.
      split; [reflexivity|]. split; [reflexivity | discriminate].
    + destruct (getline d s) as [[ok out] rest]. simpl in *.
      rewrite E. simpl. split; [exact IHn|]. split.
      * intros Ho. now rewrite (IHt Ho) at 1.
      * intros Ho. destruct (IHf Ho) as [-> ->]. split; reflexivity.
Qed.

Lemma firstLine_idem (str : istream) : firstLine (firstLine str) = firstLine str.
Proof.
  unfold firstLine at 1.
  rewrite getline_whole; [reflexivity|].
  apply (getline_split newline str).
Qed.

(** X3: whatever the outcome of [getNextCSVTransform], a sample, [false]
    or an exception, the call takes exactly the first line off the
    stream: what is left is the text after the first line end, or
    nothing when there is no line end; and a stream that is not at its
    end gets strictly shorter. *)
Theorem X3_call_consumes_exactly_one_line :
  forall (str : istream) (stamp : Timestamp) (T : Transform.t),
    (occurs newline str = true ->
     str = firstLine str
           ++ String newline (str_after (getNextCSVTransform str stamp T))) /\
    (occurs newline str = false ->
     firstLine str = str /\
     str_after (getNextCSVTransform str stamp T) = EmptyString) /\
    (peekNotEOF str = true ->
     (String.length (str_after (getNextCSVTransform str stamp T))
      < String.length str)%nat).
Proof.
  intros str stamp T. rewrite getNextCSVTransform_str_after.
  destruct (getline_split newline str) as [_ [Ht Hf]].
  split; [exact Ht|]. split; [exact Hf|].
  intros Hp. apply getline_shorter. intros ->. discriminate.
Qed.

Lemma X3_witness :
  occurs newline twoLineFile = true /\
  str_after (getNextCSVTransform twoLineFile 0 Transform.default) = "1,2".
Proof.
  split; [reflexivity|].
  pose proof (proj1 (X3_call_consumes_exactly_one_line twoLineFile 0
                       Transform.default) eq_refl) as Hsplit.
  vm_compute in Hsplit. vm_compute. congruence.
Defined.

(** X4: the outcome of [getNextCSVTransform] depends on the first line
    only through the cells 0 and 2 to 8: two lines that are no comments,
    have at least 9 cells each and agree on these cells give the same
    result, timestamp and transform, whatever cell 1 and the cells from
    9 on hold. *)
Theorem X4_only_columns_0_and_2_to_8_are_read :
  forall (str1 str2 : istream) (stamp : Timestamp) (T : Transform.t),
    isComment (firstLine str1) = false ->
    isComment (firstLine str2) = false ->
    (9 <= List.length (splitCells (firstLine str1)))%nat ->
    (9 <= List.length (splitCells (firstLine str2)))%nat ->
    (forall i, In i readColumns ->
       at_ (splitCells (firstLine str1)) i
       = at_ (splitCells (firstLine str2)) i) ->
    result (getNextCSVTransform str1 stamp T)
    = result (getNextCSVTransform str2 stamp T) /\
    stamp_after (getNextCSVTransform str1 stamp T)
    = stamp_after (getNextCSVTransform str2 stamp T) /\
    T_after (getNextCSVTransform str1 stamp T)
    = T_after (getNextCSVTransform str2 stamp T).
Proof.
  intros str1 str2 stamp T Hc1 Hc2 Hl1 Hl2 Hsame.
  rewrite !getNextCSVTransform_line. cbv zeta. rewrite Hc1, Hc2.
  apply Nat.ltb_ge in Hl1, Hl2. rewrite Hl1, Hl2.
  assert (Hp : parseTransform (splitCells (firstLine str1))
               = parseTransform (splitCells (firstLine str2))).
  { unfold parseTransform.
    rewrite !(Hsame X), !(Hsame Y), !(Hsame Z_), !(Hsame RW), !(Hsame RX),
      !(Hsame RY), !(Hsame RZ); [reflexivity | simpl; tauto ..]. }
  rewrite (Hsame TIME) by (simpl; tauto). rewrite Hp.
  destruct (stoll (at_ (splitCells (firstLine str2)) TIME));
    [destruct (parseTransform (splitCells (firstLine str2)))|];
    simpl; auto.
Qed.

Lemma X4_witness :
  result (getNextCSVTransform
            "2000,a,1,2,3,1,0,0,0,extra,cells" 0 Transform.default)
  = result (getNextCSVTransform "2000,,1,2,3,1,0,0,0" 0 Transform.default).
Proof.
  refine (proj1 (X4_only_columns_0_and_2_to_8_are_read
                   "2000,a,1,2,3,1,0,0,0,extra,cells" "2000,,1,2,3,1,0,0,0"
                   0 Transform.default eq_refl eq_refl _ _ _)).
  - vm_compute. lia.
  - vm_compute. lia.
  - intros i Hi. simpl in Hi.
    repeat (destruct Hi as [<-|Hi]; [reflexivity|]). destruct Hi.
Defined.

(** ** Counting cells *)

Lemma countChar_occurs (c : ascii) (s : string) :
  occurs c s = false -> countChar c s = 0%nat.
Proof.
  induction s as [|a s IH]; simpl; [reflexivity|].
  intros H. apply orb_false_iff in H. destruct H as [Ha Hs].
  now rewrite Ha, (IH Hs).
Qed.

Lemma countChar_app (c : ascii) (a b : string) :
  countChar c (a ++ b) = (countChar c a + countChar c b)%nat.
Proof.
  induction a as [|x a IH]; simpl; [reflexivity|]. rewrite IH. lia.
Qed.

Lemma lastChar_app_cons (a : string) (c : ascii) (b : string) :
  lastChar (a ++ String c b)
  = match b with EmptyString => Some c | _ => lastChar b end.
Proof.
  induction a as [|x a IH]; simpl.
  - now destruct b.
  - rewrite IH. destruct (a ++ String c b) eqn:E; [|reflexivity].
    destruct a; discriminate.
Qed.

Lemma lastChar_occurs (c : ascii) (s : string) :
  occurs c s = false -> s <> EmptyString ->
  exists x, lastChar s = Some x /\ Ascii.eqb x c = false.
Proof.
  induction s as [|a s IH]; [congruence|]. simpl. intros H _.
  apply orb_false_iff in H. destruct H as [Ha Hs].
  destruct s as [|b s'].
  - now exists a.
  - apply (IH Hs). discriminate.
Qed.

Lemma cellCount_single (s : string) :
  occurs comma s = false -> s <> EmptyString -> cellCount s = 1%nat.
Proof.
  intros Ho Hne. unfold cellCount. rewrite (countChar_occurs _ _ Ho).
  destruct (lastChar_occurs comma s Ho Hne) as [x [-> ->]]. reflexivity.
Qed.

Lemma cellCount_cons (cell rest : string) :
  occurs comma cell = false ->
  cellCount (cell ++ String comma rest) = S (cellCount rest).
Proof.
  intros Ho. unfold cellCount.
  rewrite countChar_app, (countChar_occurs _ _ Ho), lastChar_app_cons.
  simpl. destruct rest; simpl; lia.
Qed.

Lemma splitCells_cellCount (line : string) :
  List.length (splitCells line) = cellCount line.
Proof.
  remember (String.length line) as n eqn:Hn.
  revert line Hn. induction n as [n IH] using lt_wf_ind. intros line Hn.
  destruct line as [|c line']; [reflexivity|].
  pose proof (getline_shorter comma (String c line') ltac:(discriminate))
    as Hlt.
  pose proof (getline_ok comma (String c line')) as Hok.
  destruct (getline_split comma (String c line')) as [Hcell [Ht Hf]].
  destruct (getline comma (String c line')) as [[ok cell] rest] eqn:Eg.
  cbn [fst snd peekNotEOF] in *. subst ok.
  rewrite (splitCells_cons _ _ _ Eg). cbn [List.length].
  destruct (occurs comma (String c line')) eqn:Eo.
  - rewrite (Ht eq_refl), (cellCount_cons _ _ Hcell). f_equal.
    apply (IH (String.length rest)); [lia | reflexivity].
  - destruct (Hf eq_refl) as [-> ->].
    rewrite (cellCount_single _ Eo) by discriminate. reflexivity.
Qed.

(** X5: the number of cells that a line is cut into is the number of its
    commas, plus one when the line does not end with a comma and is not
    empty: an empty line has no cell, and an empty last field is not a
    cell. *)
Theorem X5_number_of_cells :
  forall line : string,
    List.length (splitCells line)
    = (countChar comma line
       + if endsWithComma line || negb (peekNotEOF line) then 0 else 1)%nat.
Proof.
  intros line. rewrite splitCells_cellCount. unfold cellCount, endsWithComma.
  destruct line as [|c line']; [reflexivity|].
  cbn [peekNotEOF negb]. rewrite orb_false_r.
  destruct (lastChar (String c line')) as [x|] eqn:El; [reflexivity|].
  exfalso. clear - El. revert c El.
  induction line' as [|b l IH]; intros c El; [discriminate|].
  apply (IH b). exact El.
Qed.

(** X6: a line of eight commas that ends with a comma, that is a line
    whose ninth field is empty, is cut into only 8 cells, and
    [getNextCSVTransform] returns [false] on it without looking at any
    cell. *)
Theorem X6_empty_ninth_field_gives_no_sample :
  forall (str : istream) (stamp : Timestamp) (T : Transform.t),
    (countChar comma (firstLine str) <= 8)%nat ->
    endsWithComma (firstLine str) = true ->
    (List.length (splitCells (firstLine str)) <= 8)%nat /\
    result (getNextCSVTransform str stamp T) = Returned false.
Proof.
  intros str stamp T Hc He.
  assert (Hl : (List.length (splitCells (firstLine str)) <= 8)%nat).
  { rewrite splitCells_cellCount. unfold cellCount.
    unfold endsWithComma in He.
    destruct (lastChar (firstLine str)) as [x|]; [|discriminate].
    rewrite He. lia. }
  split; [exact Hl|].
  rewrite getNextCSVTransform_line. cbv zeta.
  destruct (isComment _); [reflexivity|].
  assert (Hlt : (List.length (splitCells (firstLine str)) <? 9)%nat = true).
  { apply Nat.ltb_lt. lia. }
  now rewrite Hlt.
Qed.

Lemma X6_witness :
  (countChar comma (firstLine "1,0,1.0,2.0,3.0,1.0,0.0,0.0,") <= 8)%nat /\
  endsWithComma (firstLine "1,0,1.0,2.0,3.0,1.0,0.0,0.0,") = true /\
  result (getNextCSVTransform "1,0,1.0,2.0,3.0,1.0,0.0,0.0,"
            0 Transform.default) = Returned false.
Proof.
  assert (Hc : (countChar comma (firstLine "1,0,1.0,2.0,3.0,1.0,0.0,0.0,")
                <= 8)%nat) by (vm_compute; lia).
  split; [exact Hc|]. split; [reflexivity|].
  exact (proj2 (X6_empty_ninth_field_gives_no_sample
                  "1,0,1.0,2.0,3.0,1.0,0.0,0.0," 0 Transform.default
                  Hc eq_refl)).
Defined.

Lemma splitCells_joinCells (cells : list string) :
  Forall (fun cell => occurs comma cell = false) cells ->
  last cells "x" <> EmptyString ->
  splitCells (joinCells cells) = cells.
Proof.
  induction cells as [|cell cells IH]; intros Hall Hlast; [reflexivity|].
  inversion Hall as [|? ? Hcell Hrest]; subst.
  destruct cells as [|cell' cells'].
  - simpl in *.
    rewrite (splitCells_cons cell cell EmptyString); [reflexivity|].
    rewrite (getline_whole comma cell Hcell).
    destruct cell; [congruence | reflexivity].
  - change (joinCells (cell :: cell' :: cells'))
      with (cell ++ String comma (joinCells (cell' :: cells'))).
    rewrite (splitCells_cons _ cell (joinCells (cell' :: cells')))
      by (apply getline_until; exact Hcell).
    f_equal. apply IH; assumption.
Qed.

(** X7: cutting undoes joining.  Cells that hold no comma, the last of
    them not empty, written out with commas between them, are cut back
    into the same cells by the loop of lines 202-204. *)
Theorem X7_split_of_joined_cells :
  forall cells : list string,
    Forall (fun cell => occurs comma cell = false) cells ->
    last cells "x" <> EmptyString ->
    splitCells (joinCells cells) = cells /\
    List.length (splitCells (joinCells cells)) = List.length cells.
Proof.
  intros cells Hall Hlast.
  rewrite (splitCells_joinCells cells Hall Hlast). split; reflexivity.
Qed.

Lemma X7_witness :
  splitCells (joinCells ["12"; ""; " 1.5"; "z"]) = ["12"; ""; " 1.5"; "z"].
Proof.
  refine (proj1 (X7_split_of_joined_cells ["12"; ""; " 1.5"; "z"] _ _)).
  - repeat constructor.
  - simpl. discriminate.
Defined.

(** ** The timestamp of a CSV sample *)

Lemma stoll_range (cell : string) (raw : Z) :
  stoll cell = Returned raw -> LLONG_MIN <= raw <= LLONG_MAX.
Proof.
  unfold stoll.
  destruct (Chars.readSign (Chars.skipSpace cell)) as [neg s].
  destruct (Chars.readDigits Chars.digit 10 0 0%nat s) as [[n count] rest].
  destruct count as [|count]; [discriminate|].
  destruct (_ && _) eqn:E; [|discriminate].
  intros H. injection H as <-.
  apply andb_true_iff in E. destruct E as [E1 E2].
  apply Z.leb_le in E1, E2. lia.
Qed.

(** X8: when [getNextCSVTransform] returns [true], the timestamp it
    wrote is the [long long] read from cell 0 divided by 1000 with
    rounding toward zero, so it lies between -9223372036854775 and
    9223372036854775 and is within one unit of the raw value over
    1000. *)
Theorem X8_csv_timestamp_is_raw_over_1000_toward_zero :
  forall (str : istream) (stamp : Timestamp) (T : Transform.t),
    result (getNextCSVTransform str stamp T) = Returned true ->
    exists raw : Z,
      stoll (at_ (splitCells (firstLine str)) TIME) = Returned raw /\
      Z.abs (1000 * stamp_after (getNextCSVTransform str stamp T))
      <= Z.abs raw
      < Z.abs (1000 * stamp_after (getNextCSVTransform str stamp T)) + 1000 /\
      (0 <= raw -> 0 <= stamp_after (getNextCSVTransform str stamp T)) /\
      (raw <= 0 -> stamp_after (getNextCSVTransform str stamp T) <= 0) /\
      - 9223372036854775
      <= stamp_after (getNextCSVTransform str stamp T)
      <= 9223372036854775.
Proof.
  intros str stamp T. rewrite getNextCSVTransform_line. cbv zeta.
  destruct (isComment _); [discriminate|].
  destruct (_ <? 9)%nat; [discriminate|].
  destruct (stoll _) as [raw|e] eqn:Es; [|discriminate].
  destruct (parseTransform _); [|discriminate].
  intros _. exists raw. cbn [stamp_after].
  apply stoll_range in Es. unfold LLONG_MIN, LLONG_MAX in Es.
  pose proof (Z.quot_rem' raw 1000) as Hqr.
  assert (Hrp : 0 <= raw -> 0 <= Z.rem raw 1000 < 1000).
  { intros Hp. apply Z.rem_bound_pos; lia. }
  assert (Hrn : raw < 0 -> - 1000 < Z.rem raw 1000 <= 0).
  { intros Hn. rewrite <- (Z.opp_involutive raw), Z.rem_opp_l by lia.
    pose proof (Z.rem_bound_pos (- raw) 1000). lia. }
  split; [reflexivity|].
  destruct (Z.le_gt_cases 0 raw) as [Hpos|Hneg].
  - assert (0 <= Z.quot raw 1000) by (apply Z.quot_pos; lia).
    lia.
  - assert (Z.quot raw 1000 <= 0).
    { rewrite <- (Z.opp_involutive raw), Z.quot_opp_l by lia.
      assert (0 <= Z.quot (- raw) 1000) by (apply Z.quot_pos; lia). lia. }
    lia.
Qed.

Lemma X8_witness :
  result (getNextCSVTransform "-1500,0,1,2,3,1,0,0,0" 0 Transform.default)
  = Returned true /\
  stamp_after (getNextCSVTransform "-1500,0,1,2,3,1,0,0,0" 0
                 Transform.default) = -1.
Proof.
  assert (Hr : result (getNextCSVTransform "-1500,0,1,2,3,1,0,0,0" 0
                         Transform.default) = Returned true).
  { vm_compute. reflexivity. }
  split; [exact Hr|].
  destruct (X8_csv_timestamp_is_raw_over_1000_toward_zero
              "-1500,0,1,2,3,1,0,0,0" 0 Transform.default Hr)
    as [raw [Hraw [Habs _]]].
  vm_compute in Hraw. injection Hraw as <-.
  vm_compute. reflexivity.
Defined.

(** ** The CSV load, line by line *)

(** The outcome of a call depends on the stream through its first line
    only. *)
Lemma getNextCSVTransform_firstLine (str : istream) (stamp : Timestamp)
  (T : Transform.t) :
  result (getNextCSVTransform str stamp T)
  = result (getNextCSVTransform (firstLine str) stamp T) /\
  stamp_after (getNextCSVTransform str stamp T)
  = stamp_after (getNextCSVTransform (firstLine str) stamp T) /\
  T_after (getNextCSVTransform str stamp T)
  = T_after (getNextCSVTransform (firstLine str) stamp T).
Proof.
  rewrite !getNextCSVTransform_line, firstLine_idem. cbv zeta.
  destruct (isComment _); [auto|].
  destruct (_ <? 9)%nat; [auto|].
  destruct (stoll _); [|auto].
  destruct (parseTransform _); auto.
Qed.

(** One iteration of the load loop, told by the first line. *)
Lemma csvBody_line (file : istream) (odom : Odom.t) :
  csvBody file odom
  = match result (lineCall (firstLine file)) with
    | Returned _ =>
        Returned (afterFirstLine file,
                  (odom ++ lineSamples (firstLine file))%list)
    | Thrown e => Thrown e
    end.
Proof.
  unfold csvBody, lineSamples, lineCall.
  destruct (getNextCSVTransform_firstLine file 0 Transform.default)
    as [Hr [Hs HT]].
  rewrite <- Hr, <- Hs, <- HT, getNextCSVTransform_str_after.
  destruct (result (getNextCSVTransform file 0 Transform.default))
    as [[|]|e]; simpl; [reflexivity | now rewrite app_nil_r | reflexivity].
Qed.

(** The loop, told by the lines of the file: it stops at the first line
    whose call throws, and otherwise adds the samples of all lines. *)
Lemma csvLoop_lines (fuel : nat) (file : istream) (odom : Odom.t) :
  (forall line, In line (readLines fuel file) ->
     ~ raises (result (lineCall line))) ->
  csvLoop fuel file odom
  = Returned (odom ++ flat_map lineSamples (readLines fuel file))%list.
Proof.
  revert file odom. induction fuel as [|fuel IH]; intros file odom Hok.
  - simpl. now rewrite app_nil_r.
  - cbn [csvLoop readLines] in *. destruct (peekNotEOF file).
    + rewrite csvBody_line.
      destruct (result (lineCall (firstLine file))) as [b|e] eqn:Er.
      * cbn [bind fst snd]. rewrite IH.
        -- cbn [flat_map]. now rewrite app_assoc.
        -- intros line Hin. apply Hok. now right.
      * exfalso. apply (Hok (firstLine file)); [now left|].
        rewrite Er. now eexists.
    + simpl. now rewrite app_nil_r.
Qed.

Lemma csvLoop_raises (fuel : nat) (file : istream) (odom : Odom.t) :
  (exists line, In line (readLines fuel file) /\
                raises (result (lineCall line))) ->
  raises (csvLoop fuel file odom).
Proof.
  revert file odom. induction fuel as [|fuel IH]; intros file odom Hbad.
  - destruct Hbad as [line [[] _]].
  - cbn [csvLoop readLines] in *. destruct (peekNotEOF file).
    + rewrite csvBody_line.
      destruct (result (lineCall (firstLine file))) as [b|e] eqn:Er.
      * cbn [bind fst snd]. apply IH.
        destruct Hbad as [line [[<-|Hin] Hr]].
        -- rewrite Er in Hr. destruct Hr as [e He]. discriminate.
        -- now exists line.
      * now eexists.
    + destruct Hbad as [line [[] _]].
Qed.

(** The lines of a file hold no line end, so each is its own first
    line. *)
Lemma readLines_no_newline (fuel : nat) (file : istream) (line : string) :
  In line (readLines fuel file) -> firstLine line = line.
Proof.
  revert file. induction fuel as [|fuel IH]; intros file Hin; [destruct Hin|].
  cbn [readLines] in Hin. destruct (peekNotEOF file); [|destruct Hin].
  destruct Hin as [<-|Hin]; [apply firstLine_idem | exact (IH _ Hin)].
Qed.

(** Any fuel above the length of the file gives the same lines. *)
Lemma readLines_fuel (n m : nat) (file : istream) :
  (String.length file < n)%nat -> (String.length file < m)%nat ->
  readLines n file = readLines m file.
Proof.
  revert m file. induction n as [|n IH]; intros m file Hn Hm; [lia|].
  destruct m as [|m]; [lia|]. cbn [readLines].
  destruct file as [|c file']; [reflexivity|]. cbn [peekNotEOF].
  f_equal.
  pose proof (getline_shorter newline (String c file') ltac:(discriminate))
    as Hlt.
  fold (afterFirstLine (String c file')) in Hlt.
  apply IH; lia.
Qed.

Lemma fileLines_cons (file : istream) :
  peekNotEOF file = true ->
  fileLines file = firstLine file :: fileLines (afterFirstLine file).
Proof.
  intros Hp. unfold fileLines.
  destruct file as [|c file']; [discriminate|].
  pose proof (getline_shorter newline (String c file') ltac:(discriminate))
    as Hlt.
  fold (afterFirstLine (String c file')) in Hlt.
  change (readLines (S (String.length (String c file'))) (String c file'))
    with (firstLine (String c file')
          :: readLines (String.length (String c file'))
               (afterFirstLine (String c file'))).
  f_equal. apply readLines_fuel; lia.
Qed.

Lemma lineCall_skipped (line : string) :
  firstLine line = line -> skippedLine line ->
  result (lineCall line) = Returned false.
Proof.
  intros Hl Hs. unfold lineCall.
  rewrite getNextCSVTransform_line, Hl. cbv zeta.
  destruct (isComment line) eqn:Ec; [reflexivity|].
  destruct Hs as [Hs|Hs].
  - apply isComment_beginsWithHash in Hs. congruence.
  - apply Nat.ltb_lt in Hs. now rewrite Hs.
Qed.

Lemma lineCall_bad (line : string) :
  firstLine line = line -> badDataLine line ->
  raises (result (lineCall line)).
Proof.
  intros Hl [Hc [Hlen Hbad]]. unfold lineCall.
  rewrite getNextCSVTransform_line, Hl. cbv zeta.
  destruct (isComment line) eqn:Ec.
  { apply isComment_beginsWithHash in Ec. contradiction. }
  apply Nat.ltb_ge in Hlen. rewrite Hlen.
  destruct Hbad as [Ht | [i [Hi Hs]]].
  - unfold unparsableInteger in Ht. rewrite Ht. now eexists.
  - destruct (stoll _); [|now eexists].
    destruct (parseTransform_raises (splitCells line) i Hi) as [e He];
      [exists invalid_argument; exact Hs|].
    rewrite He. now eexists.
Qed.

(** X9: a CSV file whose lines are all comments or lines of fewer than
    9 cells is read to its end, the accumulator is left exactly as it
    was, and the call returns [true]. *)
Theorem X9_csv_load_of_skipped_lines_changes_nothing :
  forall (fs : FileSystem) (csv_path : string) (odom : Odom.t),
    Forall skippedLine (fileLines (ifstream fs csv_path)) ->
    loadTformFromMaplabCSV fs csv_path odom = Returned (true, odom).
Proof.
  intros fs csv_path odom Hall. unfold loadTformFromMaplabCSV.
  rewrite Forall_forall in Hall. fold (fileLines (ifstream fs csv_path)) in *.
  unfold fileLines in *. rewrite csvLoop_lines.
  - assert (Hnone : forall lines,
              (forall line, In line lines ->
                 result (lineCall line) = Returned false) ->
              flat_map lineSamples lines = []).
    { induction lines as [|l ls IH]; intros H; [reflexivity|].
      cbn [flat_map]. unfold lineSamples at 1.
      rewrite (H l) by now left. apply IH. intros line Hin.
      apply H. now right. }
    rewrite Hnone, app_nil_r; [reflexivity|].
    intros line Hin. apply lineCall_skipped; [|now apply Hall].
    exact (readLines_no_newline _ _ _ Hin).
  - intros line Hin [e He].
    rewrite lineCall_skipped in He; [discriminate | |now apply Hall].
    exact (readLines_no_newline _ _ _ Hin).
Qed.

Lemma X9_witness :
  Forall skippedLine (fileLines (ifstream (oneFile idleFile) "poses.csv")) /\
  loadTformFromMaplabCSV (oneFile idleFile) "poses.csv"
    [(5, sampleTransform)]
  = Returned (true, [(5, sampleTransform)]).
Proof.
  assert (H : Forall skippedLine
                (fileLines (ifstream (oneFile idleFile) "poses.csv"))).
  { change (fileLines (ifstream (oneFile idleFile) "poses.csv"))
      with [headerLine; "1,2,3"; "# end"].
    constructor; [left; eexists; reflexivity|].
    constructor; [right; vm_compute; lia|].
    constructor; [left; eexists; reflexivity|]. constructor. }
  split; [exact H|].
  exact (X9_csv_load_of_skipped_lines_changes_nothing
           (oneFile idleFile) "poses.csv" [(5, sampleTransform)] H).
Defined.

(** X10: one data line with a cell that is no number aborts the whole
    CSV load: when a line of the file does not begin with ['#'], has at
    least 9 cells and an unparsable timestamp, translation or rotation
    cell, [loadTformFromMaplabCSV] ends with an exception, whatever the
    other lines hold. *)
Theorem X10_one_bad_line_aborts_the_csv_load :
  forall (fs : FileSystem) (csv_path : string) (odom : Odom.t)
         (line : string),
    In line (fileLines (ifstream fs csv_path)) ->
    badDataLine line ->
    raises (loadTformFromMaplabCSV fs csv_path odom).
Proof.
  intros fs csv_path odom line Hin Hbad. unfold loadTformFromMaplabCSV.
  destruct (csvLoop_raises (S (String.length (ifstream fs csv_path)))
              (ifstream fs csv_path) odom) as [e He].
  - exists line. split; [exact Hin|].
    apply lineCall_bad; [|exact Hbad].
    exact (readLines_no_newline _ _ _ Hin).
  - rewrite He. now eexists.
Qed.

Lemma X10_witness :
  In "1000000,0,1.0,east,3.0,1.0,0.0,0.0,0.0"
     (fileLines (ifstream (oneFile brokenFile) "poses.csv")) /\
  badDataLine "1000000,0,1.0,east,3.0,1.0,0.0,0.0,0.0" /\
  raises (loadTformFromMaplabCSV (oneFile brokenFile) "poses.csv" Odom.init).
Proof.
  assert (Hin : In "1000000,0,1.0,east,3.0,1.0,0.0,0.0,0.0"
                  (fileLines (ifstream (oneFile brokenFile) "poses.csv"))).
  { vm_compute. right. left. reflexivity. }
  assert (Hbad : badDataLine "1000000,0,1.0,east,3.0,1.0,0.0,0.0,0.0").
  { split; [|split].
    - intros [rest H]. discriminate.
    - vm_compute. lia.
    - right. exists Y. split; [|reflexivity]. right. left. reflexivity. }
  split; [exact Hin|]. split; [exact Hbad|].
  exact (X10_one_bad_line_aborts_the_csv_load
           (oneFile brokenFile) "poses.csv" Odom.init _ Hin Hbad).
Defined.

(** X11: when no line of the file makes [getNextCSVTransform] throw,
    [loadTformFromMaplabCSV] returns [true] and the accumulator is what
    it was followed by the samples of the lines, in the order of the
    file, one for each line on which the call returns [true]. *)
Theorem X11_csv_load_appends_samples_in_file_order :
  forall (fs : FileSystem) (csv_path : string) (odom : Odom.t),
    (forall line, In line (fileLines (ifstream fs csv_path)) ->
       ~ raises (result (lineCall line))) ->
    loadTformFromMaplabCSV fs csv_path odom
    = Returned (true,
                (odom ++ flat_map lineSamples
                           (fileLines (ifstream fs csv_path)))%list).
Proof.
  intros fs csv_path odom Hok. unfold loadTformFromMaplabCSV.
  unfold fileLines in *. now rewrite (csvLoop_lines _ _ _ Hok).
Qed.

Lemma X11_witness :
  loadTformFromMaplabCSV (oneFile sampleFile) "poses.csv"
    [(5, sampleTransform)]
  = Returned (true, [(5, sampleTransform); (1000, sampleTransform)]).
Proof.
  rewrite (X11_csv_load_appends_samples_in_file_order
             (oneFile sampleFile) "poses.csv" [(5, sampleTransform)]).
  - vm_compute. reflexivity.
  - intros line Hin [e He]. vm_compute in Hin.
    repeat (destruct Hin as [<-|Hin]; [vm_compute in He; discriminate|]).
    destruct Hin.
Defined.

(** ** The transform load from a container *)

Lemma posesOf_nonempty (bag : Bag) :
  (exists msg, In (PoseStampedMsg msg) bag) <-> posesOf bag <> [].
Proof.
  unfold posesOf. induction bag as [|m bag IH]; simpl.
  - split; [intros [msg []] | congruence].
  - destruct m as [c|p|]; simpl.
    + rewrite <- IH. split.
      * intros [msg [H|H]]; [discriminate | now exists msg].
      * intros [msg H]. exists msg. now right.
    + split; [discriminate|]. intros _. exists p. now left.
    + rewrite <- IH. split.
      * intros [msg [H|H]]; [discriminate | now exists msg].
      * intros [msg H]. exists msg. now right.
Qed.

(** X12: on a container that opens, [loadTformFromROSBag] appends one
    sample per pose record, in the order of the container and whatever
    other records lie between them, and it returns [true] exactly when
    the accumulator ends up non-empty: when it held something before or
    the container has a pose record. *)
Theorem X12_pose_load_appends_and_succeeds_iff_nonempty :
  forall (bags : BagStore) (bag_path : string) (bag : Bag) (odom : Odom.t),
    bags bag_path = Some bag ->
    snd (loadTformFromROSBag bags bag_path odom)
    = (odom ++ map (fun msg => (poseStamp msg, poseTransform msg))
                   (posesOf bag))%list /\
    (fst (loadTformFromROSBag bags bag_path odom) = true <->
     odom <> [] \/ exists msg, In (PoseStampedMsg msg) bag).
Proof.
  intros bags bag_path bag odom Hopen.
  unfold loadTformFromROSBag. rewrite Hopen, View_poses, tformLoop_poses.
  cbv zeta.
  pose proof (posesOf_nonempty bag) as Hposes.
  rewrite Hposes.
  destruct odom as [|o odom]; destruct (posesOf bag) as [|p ps]; simpl;
    (split; [reflexivity|]); split; intros H;
    try reflexivity; try discriminate;
    try (left; discriminate); try (right; discriminate).
  destruct H as [H|H]; congruence.
Qed.

Lemma X12_witness :
  fst (loadTformFromROSBag (oneBag [OtherMsg]) "poses.bag"
         [(5, sampleTransform)]) = true /\
  fst (loadTformFromROSBag (oneBag [OtherMsg]) "poses.bag" Odom.init)
  = false.
Proof.
  split.
  - apply (proj2 (X12_pose_load_appends_and_succeeds_iff_nonempty
                    (oneBag [OtherMsg]) "poses.bag" [OtherMsg]
                    [(5, sampleTransform)] eq_refl)).
    left. discriminate.
  - reflexivity.
Defined.

(** X13: the microsecond timestamps keep the order of the record times:
    for two poses with normalised times, the one that is not after the
    other gets a timestamp that is not greater, and a pose of an earlier
    second gets a strictly smaller one. *)
Theorem X13_pose_timestamps_keep_the_order :
  forall a b : PoseStamped,
    stampNormalised a -> stampNormalised b ->
    (notAfter a b -> poseStamp a <= poseStamp b) /\
    (stamp_sec a < stamp_sec b -> poseStamp a < poseStamp b).
Proof.
  intros a b [Hsa Hna] [Hsb Hnb].
  rewrite (poseStamp_exact a), (poseStamp_exact b)
    by (unfold stampInRange; lia).
  assert (Ha : 0 <= stamp_nsec a / 1000 < 1000000).
  { split; [apply Z.div_pos; lia | apply Z.div_lt_upper_bound; lia]. }
  assert (Hb : 0 <= stamp_nsec b / 1000 < 1000000).
  { split; [apply Z.div_pos; lia | apply Z.div_lt_upper_bound; lia]. }
  split.
  - intros [Hlt | [Heq Hle]]; [lia|].
    rewrite Heq. apply Z.add_le_mono_l. apply Z.div_le_mono; lia.
  - intros Hlt. lia.
Qed.

Lemma X13_witness :
  stampNormalised samplePose /\
  poseStamp samplePose
  < poseStamp (mkPoseStamped 6 0 Float.zero Float.zero Float.zero
                 Float.zero Float.zero Float.zero (Float.of_Z 1)).
Proof.
  assert (Ha : stampNormalised samplePose).
  { unfold stampNormalised. simpl. lia. }
  split; [exact Ha|].
  apply (X13_pose_timestamps_keep_the_order samplePose _ Ha).
  - unfold stampNormalised. simpl. lia.
  - simpl. lia.
Defined.

(** ** What the scan load accumulates *)

Lemma feedAll_spec (scan_config : ScanConfig) (msgs : list PointCloud2)
  (lidar : Lidar.t) :
  Lidar.scans (feedAll scan_config msgs lidar)
  = (Lidar.scans lidar ++ decodedScans msgs)%list /\
  Lidar.getTotalPoints (feedAll scan_config msgs lidar)
  = (Lidar.getTotalPoints lidar + totalSize (decodedScans msgs))%nat.
Proof.
  unfold feedAll, totalSize, decodedScans.
  revert lidar. induction msgs as [|msg msgs IH]; intros lidar.
  - simpl. now rewrite app_nil_r, Nat.add_0_r.
  - cbn [fold_left map].
    destruct (IH (scanBody scan_config msg lidar)) as [Hs Ht].
    rewrite Hs, Ht. unfold scanBody, Lidar.addPointcloud, Lidar.getTotalPoints.
    cbn [Lidar.scans Lidar.total_points]. rewrite <- app_assoc.
    split; [reflexivity|].
    change (list_sum (?a :: ?l)) with (a + list_sum l)%nat. lia.
Qed.

(** With a cap between 0 and [INT_MAX] the loop feeds the records up to
    the one that fills the accumulator, at least one. *)
Lemma scanLoop_firstn (config_ : Config) (scan_config : ScanConfig)
  (msgs : list PointCloud2) (lidar : Lidar.t) :
  0 <= use_n_scans config_ <= INT_MAX ->
  scanCount lidar < Z.max (use_n_scans config_) 1 ->
  scanLoop config_ scan_config (map PointCloud2Msg msgs) lidar
  = feedAll scan_config
      (firstn (Z.to_nat (Z.max (use_n_scans config_) 1 - scanCount lidar))
              msgs)
      lidar.
Proof.
  intros Hk. revert lidar.
  induction msgs as [|msg msgs IH]; intros lidar Hlt.
  - now rewrite firstn_nil.
  - cbn [map scanLoop instantiatePointCloud2]. cbv zeta.
    pose proof (scanCount_scanBody scan_config msg lidar) as Hadd.
    pose proof (scanCount_nonneg lidar) as Hpos.
    rewrite capReached_plain by (unfold INT_MAX in *; lia).
    destruct (Z.leb_spec (use_n_scans config_)
                (scanCount (scanBody scan_config msg lidar))) as [Hle|Hgt].
    + replace (Z.max (use_n_scans config_) 1 - scanCount lidar) with 1
        by lia.
      reflexivity.
    + rewrite IH by lia. rewrite Hadd.
      replace (Z.to_nat (Z.max (use_n_scans config_) 1 - scanCount lidar))
        with (S (Z.to_nat (Z.max (use_n_scans config_) 1
                           - (scanCount lidar + 1)))) by lia.
      reflexivity.
Qed.

(** With a negative cap the comparison of line 100 never holds. *)
Lemma scanLoop_negative_cap (config_ : Config) (scan_config : ScanConfig)
  (msgs : list PointCloud2) (lidar : Lidar.t) :
  INT_MIN <= use_n_scans config_ < 0 ->
  scanCount lidar + Z.of_nat (List.length msgs) < 2 ^ 63 ->
  scanLoop config_ scan_config (map PointCloud2Msg msgs) lidar
  = feedAll scan_config msgs lidar.
Proof.
  intros Hk. revert lidar.
  induction msgs as [|msg msgs IH]; intros lidar Hsmall; [reflexivity|].
  cbn [map scanLoop instantiatePointCloud2]. cbv zeta.
  pose proof (scanCount_scanBody scan_config msg lidar) as Hadd.
  pose proof (scanCount_nonneg lidar) as Hpos.
  cbn [List.length] in Hsmall.
  assert (Hcap : capReached config_ (scanBody scan_config msg lidar) = false).
  { unfold capReached, to_size_t.
    fold (scanCount (scanBody scan_config msg lidar)). rewrite Hadd.
    apply Z.leb_gt. unfold INT_MIN in Hk.
    rewrite (Z.mod_small (scanCount lidar + 1)) by lia.
    replace (use_n_scans config_ mod 2 ^ 64)
      with (use_n_scans config_ + 2 ^ 64).
    - lia.
    - apply Z.mod_unique with (q := -1); lia. }
  rewrite Hcap. unfold feedAll. cbn [fold_left].
  apply IH. rewrite Hadd. lia.
Qed.

Lemma load_opened (bags : BagStore) (config_ : Config)
  (bag_path : string) (scan_config : ScanConfig) (lidar : Lidar.t)
  (bag : Bag) (final : Lidar.t) :
  bags bag_path = Some bag ->
  scanLoop config_ scan_config (map PointCloud2Msg (cloudsOf bag)) lidar
  = final ->
  loadPointcloudFromROSBag bags config_ bag_path scan_config lidar
  = (negb (Lidar.getTotalPoints final =? 0)%nat, final).
Proof.
  intros Hopen <-.
  rewrite (loadPointcloudFromROSBag_result _ _ _ _ _ bag Hopen).
  now rewrite View_clouds.
Qed.

(** X14: with a cap [K] between 0 and [INT_MAX], a load into an empty
    accumulator takes the first [max K 1] point-cloud records of the
    container (all of them when there are fewer), skipping the records
    of other types: the accumulator holds their clouds in the order of the
    container, its point total is the number of points of these clouds,
    and the call returns [true] exactly when that number is not zero. *)
Theorem X14_scan_load_takes_the_first_records :
  forall (bags : BagStore) (config_ : Config) (bag_path : string)
         (scan_config : ScanConfig) (bag : Bag),
    bags bag_path = Some bag ->
    0 <= use_n_scans config_ <= INT_MAX ->
    let taken :=
      firstn (Z.to_nat (Z.max (use_n_scans config_) 1)) (cloudsOf bag) in
    let loaded :=
      loadPointcloudFromROSBag bags config_ bag_path scan_config Lidar.init in
    Lidar.scans (snd loaded) = decodedScans taken /\
    Lidar.getTotalPoints (snd loaded) = totalSize (decodedScans taken) /\
    fst loaded = negb (totalSize (decodedScans taken) =? 0)%nat.
Proof.
  intros bags config_ bag_path scan_config bag Hopen Hk taken loaded.
  unfold loaded.
  rewrite (load_opened _ _ _ _ _ bag _ Hopen
             (scanLoop_firstn config_ scan_config (cloudsOf bag) Lidar.init
                Hk ltac:(change (scanCount Lidar.init) with 0; lia))).
  change (scanCount Lidar.init) with 0. rewrite Z.sub_0_r. fold taken.
  cbn [fst snd].
  destruct (feedAll_spec scan_config taken Lidar.init) as [Hs Ht].
  rewrite Hs, Ht. cbn [Lidar.init Lidar.scans Lidar.getTotalPoints
                       Lidar.total_points app Nat.add].
  repeat split.
Qed.

Lemma X14_witness :
  0 <= use_n_scans (mkConfig 2) <= INT_MAX /\
  Lidar.getTotalPoints
    (snd (loadPointcloudFromROSBag (oneBag threeScanBag) (mkConfig 2)
            "scans.bag" mkScanConfig Lidar.init)) = 2%nat.
Proof.
  assert (Hk : 0 <= use_n_scans (mkConfig 2) <= INT_MAX).
  { unfold INT_MAX. simpl. lia. }
  split; [exact Hk|].
  rewrite (proj1 (proj2 (X14_scan_load_takes_the_first_records
                           (oneBag threeScanBag) (mkConfig 2) "scans.bag"
                           mkScanConfig threeScanBag eq_refl Hk))).
  reflexivity.
Defined.

(** X15: a negative cap is no cap.  Compared as a [size_t] at line 100
    it is never reached, and a load into an empty accumulator takes every
    point-cloud record of the container. *)
Theorem X15_negative_cap_loads_every_record :
  forall (bags : BagStore) (config_ : Config) (bag_path : string)
         (scan_config : ScanConfig) (bag : Bag),
    bags bag_path = Some bag ->
    INT_MIN <= use_n_scans config_ < 0 ->
    Z.of_nat (List.length (cloudsOf bag)) < 2 ^ 63 ->
    let loaded :=
      loadPointcloudFromROSBag bags config_ bag_path scan_config Lidar.init in
    Lidar.scans (snd loaded) = decodedScans (cloudsOf bag) /\
    scanCount (snd loaded) = Z.of_nat (List.length (cloudsOf bag)).
Proof.
  intros bags config_ bag_path scan_config bag Hopen Hk Hsmall loaded.
  unfold loaded.
  rewrite (load_opened _ _ _ _ _ bag _ Hopen
             (scanLoop_negative_cap config_ scan_config (cloudsOf bag)
                Lidar.init Hk
                ltac:(change (scanCount Lidar.init) with 0; lia))).
  cbn [snd]. unfold scanCount, Lidar.getNumberOfScans.
  destruct (feedAll_spec scan_config (cloudsOf bag) Lidar.init) as [Hs _].
  rewrite Hs. cbn [Lidar.init Lidar.scans app].
  split; [reflexivity|]. unfold decodedScans. now rewrite length_map.
Qed.

Lemma X15_witness :
  INT_MIN <= use_n_scans (mkConfig (-1)) < 0 /\
  Z.of_nat (List.length (cloudsOf threeScanBag)) < 2 ^ 63 /\
  scanCount
    (snd (loadPointcloudFromROSBag (oneBag threeScanBag) (mkConfig (-1))
            "scans.bag" mkScanConfig Lidar.init)) = 3.
Proof.
  assert (Hk : INT_MIN <= use_n_scans (mkConfig (-1)) < 0).
  { unfold INT_MIN. simpl. lia. }
  assert (Hs : Z.of_nat (List.length (cloudsOf threeScanBag)) < 2 ^ 63).
  { vm_compute. reflexivity. }
  split; [exact Hk|]. split; [exact Hs|].
  exact (proj2 (X15_negative_cap_loads_every_record
                  (oneBag threeScanBag) (mkConfig (-1)) "scans.bag"
                  mkScanConfig threeScanBag eq_refl Hk Hs)).
Defined.

Lemma totalSize_zero (msgs : list PointCloud2) :
  Forall (fun msg => cloudSize (parsePointcloudMsg msg emptyCloud) = 0%nat)
         msgs ->
  totalSize (decodedScans msgs) = 0%nat.
Proof.
  unfold totalSize, decodedScans. rewrite map_map.
  induction 1 as [|msg l Hmsg _ IH]; [reflexivity|].
  cbn [map]. change (list_sum (?a :: ?l)) with (a + list_sum l)%nat.
  rewrite Hmsg. exact IH.
Qed.

(** X16: a failed scan load is not undone.  When every point-cloud
    record of the container decodes to a cloud without points, the load
    into an empty accumulator returns [false], yet the accumulator holds
    the empty scans it was fed, at least one. *)
Theorem X16_failed_scan_load_keeps_its_scans :
  forall (bags : BagStore) (config_ : Config) (bag_path : string)
         (scan_config : ScanConfig) (bag : Bag),
    bags bag_path = Some bag ->
    0 <= use_n_scans config_ <= INT_MAX ->
    cloudsOf bag <> [] ->
    Forall (fun msg => cloudSize (parsePointcloudMsg msg emptyCloud) = 0%nat)
           (cloudsOf bag) ->
    let loaded :=
      loadPointcloudFromROSBag bags config_ bag_path scan_config Lidar.init in
    fst loaded = false /\
    Lidar.getTotalPoints (snd loaded) = 0%nat /\
    1 <= scanCount (snd loaded).
Proof.
  intros bags config_ bag_path scan_config bag Hopen Hk Hne Hall loaded.
  unfold loaded.
  rewrite (load_opened _ _ _ _ _ bag _ Hopen
             (scanLoop_firstn config_ scan_config (cloudsOf bag) Lidar.init
                Hk ltac:(change (scanCount Lidar.init) with 0; lia))).
  change (scanCount Lidar.init) with 0. rewrite Z.sub_0_r. cbn [fst snd].
  set (n := Z.to_nat (Z.max (use_n_scans config_) 1)).
  destruct (feedAll_spec scan_config (firstn n (cloudsOf bag)) Lidar.init)
    as [Hs Ht].
  assert (Hzero : totalSize (decodedScans (firstn n (cloudsOf bag))) = 0%nat).
  { assert (Hsub : Forall (fun msg =>
                cloudSize (parsePointcloudMsg msg emptyCloud) = 0%nat)
              (firstn n (cloudsOf bag))).
    { rewrite Forall_forall in *. intros msg Hin.
      apply Hall. rewrite <- (firstn_skipn n (cloudsOf bag)).
      apply in_or_app. now left. }
    exact (totalSize_zero _ Hsub). }
  rewrite Ht, Hzero. cbn [Lidar.init Lidar.getTotalPoints
                          Lidar.total_points Nat.add].
  split; [reflexivity|]. split; [reflexivity|].
  unfold scanCount, Lidar.getNumberOfScans. rewrite Hs.
  cbn [Lidar.init Lidar.scans app]. unfold decodedScans.
  rewrite length_map.
  destruct (cloudsOf bag) as [|msg rest]; [congruence|].
  assert (Hn : n = S (Nat.pred n)) by (unfold n; lia).
  rewrite Hn. cbn [firstn List.length]. lia.
Qed.

Lemma X16_witness :
  cloudsOf [PointCloud2Msg blindMsg] <> [] /\
  loadPointcloudFromROSBag (oneBag [PointCloud2Msg blindMsg]) (mkConfig 5)
    "scans.bag" mkScanConfig Lidar.init
  = (false, Lidar.mk [mkCloud sampleHeader []] 0).
Proof.
  assert (Hne : cloudsOf [PointCloud2Msg blindMsg] <> []) by discriminate.
  split; [exact Hne|].
  assert (Hk : 0 <= use_n_scans (mkConfig 5) <= INT_MAX).
  { unfold INT_MAX. simpl. lia. }
  destruct (X16_failed_scan_load_keeps_its_scans
              (oneBag [PointCloud2Msg blindMsg]) (mkConfig 5) "scans.bag"
              mkScanConfig [PointCloud2Msg blindMsg] eq_refl Hk Hne)
    as [Hf _].
  - constructor; [reflexivity | constructor].
  - reflexivity.
Defined.

(** X17: the cap does not guard an accumulator that is already full.
    The comparison of line 100 comes after [addPointcloud], so a load
    into an accumulator that holds [K] scans or more still adds the
    first point-cloud record of the container, and only that one. *)
Theorem X17_load_into_full_accumulator_adds_one_scan :
  forall (bags : BagStore) (config_ : Config) (bag_path : string)
         (scan_config : ScanConfig) (bag : Bag) (lidar : Lidar.t)
         (msg : PointCloud2) (rest : list PointCloud2),
    bags bag_path = Some bag ->
    0 <= use_n_scans config_ <= INT_MAX ->
    use_n_scans config_ <= scanCount lidar < INT_MAX ->
    cloudsOf bag = msg :: rest ->
    let loaded :=
      loadPointcloudFromROSBag bags config_ bag_path scan_config lidar in
    Lidar.scans (snd loaded)
    = (Lidar.scans lidar ++ [parsePointcloudMsg msg emptyCloud])%list /\
    scanCount (snd loaded) = scanCount lidar + 1.
Proof.
  intros bags config_ bag_path scan_config bag lidar msg rest
         Hopen Hk Hfull Hbag loaded.
  pose proof (scanCount_scanBody scan_config msg lidar) as Hadd.
  assert (Hloop : scanLoop config_ scan_config
                    (map PointCloud2Msg (cloudsOf bag)) lidar
                  = scanBody scan_config msg lidar).
  { rewrite Hbag. cbn [map scanLoop instantiatePointCloud2]. cbv zeta.
    rewrite capReached_plain by (unfold INT_MAX in *; lia).
    destruct (Z.leb_spec (use_n_scans config_)
                (scanCount (scanBody scan_config msg lidar)));
      [reflexivity | lia]. }
  unfold loaded. rewrite (load_opened _ _ _ _ _ bag _ Hopen Hloop).
  cbn [snd]. split; [reflexivity | exact Hadd].
Qed.

Lemma X17_witness :
  scanCount
    (snd (loadPointcloudFromROSBag (oneBag threeScanBag) (mkConfig 1)
            "scans.bag" mkScanConfig
            (Lidar.mk [emptyCloud; emptyCloud] 0))) = 3.
Proof.
  refine (proj2 (X17_load_into_full_accumulator_adds_one_scan
                   (oneBag threeScanBag) (mkConfig 1) "scans.bag"
                   mkScanConfig threeScanBag
                   (Lidar.mk [emptyCloud; emptyCloud] 0)
                   bareMsg [intensityMsg; timedMsg] eq_refl _ _ eq_refl)).
  - unfold INT_MAX. simpl. lia.
  - unfold INT_MAX, scanCount. simpl. lia.
Defined.
